(** * goproxy: CONNECT handling (https.go)

    A shallow embedding of [https.go]: the CONNECT policy dispatch
    ([handleHttps]), the TLS and plain-HTTP man-in-the-middle loops, the
    parent-proxy dialers ([NewConnectDialToProxyWithHandler]) and the
    certificate-forging TLS configuration ([TLSConfigFromCA]).

    Go strings are byte strings and are modelled by [string].  Effects
    (socket writes, dials, callbacks, logging) are recorded in a trace of
    [Event]s carried by a small state monad; the outcome of every effect
    that can fail is given by the environment. *)

From Stdlib Require Import Ascii String ZArith Lia.
From stdpp Require Import base strings list gmap pretty sorting.

Open Scope string_scope.
Open Scope list_scope.

(** ** Errors and results *)

(** A Go [error] value, identified by its message. *)
Inductive error : Type := Err (msg : string).

(** [io.EOF] *)
Definition io_EOF : error := Err "EOF".

Definition error_eqb (a b : error) : bool :=
  match a, b with Err x, Err y => String.eqb x y end.

(** A Go pair [(value, err)] with exactly one side set. *)
Inductive Result (A : Type) : Type :=
| Ok (a : A)
| Fail (e : error).
Arguments Ok {A} a.
Arguments Fail {A} e.

(** ** Strings *)

Definition CR : ascii := ascii_of_nat 13.
Definition LF : ascii := ascii_of_nat 10.
Definition CRLF : string := String CR (String LF EmptyString).

Definition is_digit (c : ascii) : bool :=
  (48 <=? nat_of_ascii c)%nat && (nat_of_ascii c <=? 57)%nat.

Fixpoint all_digits (s : string) : bool :=
  match s with
  | EmptyString => true
  | String c r => is_digit c && all_digits r
  end.

(** Does [:\d+$] match the whole of [s]? *)
Definition port_here (s : string) : bool :=
  match s with
  | String c (String d r) => Ascii.eqb c ":" && is_digit d && all_digits r
  | _ => false
  end.

(** Modelled from the spec: the pattern [hasPort] is declared outside
    https.go; [stripPort] documents it as [:\d+$] and the spec calls it
    the [:port] suffix.  [hasPort_FindString] is [hasPort.FindString]: the
    leftmost match, or the empty string when there is none. *)
Fixpoint hasPort_FindString (s : string) : string :=
  if port_here s then s
  else match s with
       | EmptyString => EmptyString
       | String _ r => hasPort_FindString r
       end.

(** [hasPort.MatchString] *)
Fixpoint hasPort_MatchString (s : string) : bool :=
  port_here s ||
  match s with
  | EmptyString => false
  | String _ r => hasPort_MatchString r
  end.

(** [s[:n]] for [n <= len(s)] *)
Definition slice_to (s : string) (n : nat) : string := substring 0 n s.

(** [s[n:]] for [n <= len(s)] *)
Definition slice_from (s : string) (n : nat) : string :=
  substring n (String.length s - n) s.

Definition stripPort (s : string) : string :=
  let port := hasPort_FindString s in
  slice_to s (String.length s - String.length port).

(** [strings.TrimPrefix] *)
Definition TrimPrefix (s pre : string) : string :=
  if String.prefix pre s then slice_from s (String.length pre) else s.

(** [httpsRegexp.MatchString] for [httpsRegexp = ^https:\/\/] *)
Definition httpsRegexp_MatchString (s : string) : bool :=
  String.prefix "https://" s.

(** [strconv.Itoa] *)
Definition Itoa (n : Z) : string := pretty n.

(** ** HTTP data *)

(** [url.URL], with the fields this file reads or sets. *)
Record URL : Type := mkURL {
  Scheme : string;
  Opaque : string;
  Host : string;
  Path : string;
  RawQuery : string
}.

Definition URL_with_Host (u : URL) (h : string) : URL :=
  {| Scheme := Scheme u; Opaque := Opaque u; Host := h;
     Path := Path u; RawQuery := RawQuery u |}.

(** [http.Header]: canonical header name to its values. *)
Abbreviation Header := (gmap string (list string)).

(** [Header.Del] and [Header.Set]; the names used in this file
    ([Content-Length], [Transfer-Encoding], [Connection], ...) are already
    in canonical form. *)
Definition Header_Del (k : string) (h : Header) : Header := delete k h.
Definition Header_Set (k v : string) (h : Header) : Header := <[k := [v]]> h.

Definition header_line (k v : string) : string := k +:+ ": " +:+ v +:+ CRLF.

Definition header_lines (kv : string * list string) : list string :=
  header_line kv.1 <$> kv.2.

Definition key_le (a b : string * list string) : Prop := String.le a.1 b.1.

#[global] Instance key_le_dec : RelDecision key_le.
Proof. intros a b. unfold key_le. apply _. Defined.

(** The lines [Header.Write] sends: one per value, keys in sorted order. *)
Definition Header_wire_lines (h : Header) : list string :=
  merge_sort key_le (map_to_list h) ≫= header_lines.

(** The bytes [Header.Write] sends. *)
Definition Header_wire (h : Header) : string :=
  foldr String.append EmptyString (Header_wire_lines h).

(** A response body as a reader: the bytes it yields and, after them,
    the error that ends it ([None] for a clean end). *)
Record Body : Type := mkBody {
  body_data : string;
  body_err : option error
}.

(** [ioutil.ReadAll]: everything read, and the error met, if any. *)
Definition ReadAll (b : Body) : string * option error :=
  (body_data b, body_err b).

(** [io.LimitReader(b, n)]: stops with a clean end once [n] bytes were
    delivered, without asking [b] again. *)
Definition LimitReader (b : Body) (n : nat) : Body :=
  if (n <=? String.length (body_data b))%nat
  then {| body_data := slice_to (body_data b) n; body_err := None |}
  else b.

Record Request : Type := mkRequest {
  Method : string;
  req_URL : option URL;
  req_Host : string;
  req_Header : Header;
  RemoteAddr : string
}.

Definition Request_with_URL (r : Request) (u : option URL) : Request :=
  {| Method := Method r; req_URL := u; req_Host := req_Host r;
     req_Header := req_Header r; RemoteAddr := RemoteAddr r |}.

Definition Request_with_RemoteAddr (r : Request) (a : string) : Request :=
  {| Method := Method r; req_URL := req_URL r; req_Host := req_Host r;
     req_Header := req_Header r; RemoteAddr := a |}.

Definition Request_with_Header (r : Request) (h : Header) : Request :=
  {| Method := Method r; req_URL := req_URL r; req_Host := req_Host r;
     req_Header := h; RemoteAddr := RemoteAddr r |}.

Record Response : Type := mkResponse {
  Status : string;
  StatusCode : Z;
  resp_Header : Header;
  resp_Body : Body
}.

Definition Response_with_Header (r : Response) (h : Header) : Response :=
  {| Status := Status r; StatusCode := StatusCode r;
     resp_Header := h; resp_Body := resp_Body r |}.

(** ** Certificates and contexts *)

(** A certificate: a root, or a leaf with its SAN list and its signer. *)
Inductive Certificate : Type :=
| RootCA (name : string)
| Leaf (san : list string) (issuer : Certificate).

Definition SAN (c : Certificate) : list string :=
  match c with
  | RootCA _ => []
  | Leaf san _ => san
  end.

(** Modelled from the spec: [signHost] lives outside https.go; it
    "produces a leaf certificate whose SAN list is the given names, signed
    by the configured CA key pair". *)
Definition signHost (ca : Certificate) (hosts : list string) : Result Certificate :=
  Ok (Leaf hosts ca).

(** The certificate store interface: [Fetch(hostname, gen)]. *)
Record CertStorage : Type := mkCertStorage {
  Fetch : string -> (unit -> Result Certificate) -> Result Certificate
}.

(** [ProxyCtx], with the fields this file reads or sets. *)
Record ProxyCtx : Type := mkProxyCtx {
  Req : option Request;
  Resp : option Response;
  Session : Z;
  UserData : option string;
  certStore : option CertStorage
}.

Definition ProxyCtx_with_Req (c : ProxyCtx) (r : option Request) : ProxyCtx :=
  {| Req := r; Resp := Resp c; Session := Session c;
     UserData := UserData c; certStore := certStore c |}.

(** [tls.ClientHelloInfo] *)
Record ClientHelloInfo : Type := mkHello { ServerName : string }.

(** The variables the [GetCertificate] closure of [TLSConfigFromCA]
    captures; [cl_serverName] is assigned by the closure. *)
Record CertClosure : Type := mkCertClosure {
  cl_ca : Certificate;
  cl_ctx : ProxyCtx;
  cl_serverName : string
}.

(** [tls.Config] *)
Record TlsConfig : Type := mkTlsConfig {
  InsecureSkipVerify : bool;
  GetCertificate : option CertClosure
}.

Definition TlsConfig_Clone (c : TlsConfig) : TlsConfig := c.

(** ** Connections, events and the effect monad *)

Inductive Conn : Type :=
| ClientConn
| TCPConn (network addr : string)
| TLSClient (c : Conn) (cfg : TlsConfig)
| TLSServer (c : Conn) (cfg : TlsConfig).

(** A [Hijack] callback, named. *)
Inductive HijackFunc : Type := HijackFn (name : string).

Inductive Task : Type :=
| GoCopyAndClose (dst src : Conn)
| GoCopyOrWarnBoth (target client : Conn).

Inductive Event : Type :=
| EvLogf (format : string)
| EvWarnf (format : string)
| EvDial (network addr : string)
| EvWrite (c : Conn) (data : string)
| EvWriteHeader (c : Conn) (h : Header)
| EvWriteRequest (c : Conn) (r : Request)
| EvWriteResponse (c : Conn) (r : Response)
| EvCopyChunked (c : Conn) (b : Body)
| EvChunkedClose (c : Conn)
| EvClose (c : Conn)
| EvCopy (dst src : Conn)
| EvCloseWrite (c : Conn)
| EvCloseRead (c : Conn)
| EvBodyClose (b : Body)
| EvHandshake (c : Conn)
| EvHijack (f : HijackFunc) (r : Request) (c : Conn) (ctx : ProxyCtx)
| EvRoundTrip (ctx : ProxyCtx) (r : Request)
| EvServeWebsocketTLS (ctx : ProxyCtx) (r : Request) (cfg : TlsConfig) (c : Conn)
| EvGo (t : Task).

(** The state effects act on: the events so far, oldest first, and the
    proxy's session counter [proxy.sess]. *)
Record World : Type := mkWorld {
  trace : list Event;
  sess : Z
}.

Definition M (A : Type) : Type := World -> A * World.

Definition ret {A} (a : A) : M A := fun w => (a, w).

Definition bind {A B} (m : M A) (k : A -> M B) : M B :=
  fun w => let (a, w') := m w in k a w'.

Declare Scope io_scope.
Delimit Scope io_scope with io.
Notation "x <- m ;; k" := (bind m (fun x => k))
  (at level 100, m at next level, right associativity) : io_scope.
Notation "m ;;; k" := (bind m (fun _ => k))
  (at level 100, right associativity) : io_scope.
Open Scope io_scope.

(** An effect with no result the code looks at. *)
Definition emit (ev : Event) : M unit :=
  fun w => (tt, {| trace := trace w ++ [ev]; sess := sess w |}).

Definition wrap64 (z : Z) : Z := ((z + 2 ^ 63) `mod` 2 ^ 64 - 2 ^ 63)%Z.

(** [atomic.AddInt64(&proxy.sess, 1)] *)
Definition nextSession : M Z :=
  fun w => let s := wrap64 (sess w + 1) in
           (s, {| trace := trace w; sess := s |}).

(** How a handler ends. *)
Inductive Outcome : Type :=
| Returned
| Panicked (msg : string).

(** [func(network, addr string) (net.Conn, error)] *)
Definition Dialer : Type := string -> string -> M (Result Conn).

(** ** CONNECT actions *)

(** [ConnectActionLiteral] is an [int]; the constants are numbered by [iota]. *)
Definition ConnectActionLiteral : Type := Z.
Definition ConnectAccept : ConnectActionLiteral := 0%Z.
Definition ConnectReject : ConnectActionLiteral := 1%Z.
Definition ConnectMitm : ConnectActionLiteral := 2%Z.
Definition ConnectHijack : ConnectActionLiteral := 3%Z.
Definition ConnectHTTPMitm : ConnectActionLiteral := 4%Z.
Definition ConnectProxyAuthHijack : ConnectActionLiteral := 5%Z.

Record ConnectAction : Type := mkConnectAction {
  Action : ConnectActionLiteral;
  Hijack : option HijackFunc;
  TLSConfig : option (string -> ProxyCtx -> Result TlsConfig)
}.

(** An [HttpsHandler]: [HandleHttpConnect(host, ctx)] gives back the
    decision (or nil), the host, and the context as it left it. *)
Definition HttpsHandler : Type :=
  string -> ProxyCtx -> option ConnectAction * string * ProxyCtx.

(** [ProxyHttpServer], with the fields and methods this file uses;
    [filterRequest] and [filterResponse] run the user's filter chains. *)
Record ProxyHttpServer : Type := mkProxy {
  httpsHandlers : list HttpsHandler;
  ConnectDial : option Dialer;
  Tr_DialContext : option Dialer;
  Tr_TLSClientConfig : TlsConfig;
  CertStore : option CertStorage;
  filterRequest : Request -> ProxyCtx -> Request * option Response;
  filterResponse : Response -> ProxyCtx -> Response
}.

(** What [http.ResponseWriter] turns out to be: not a [Hijacker], or one
    whose [Hijack()] gives a connection and an error value. *)
Inductive ResponseWriter : Type :=
| NotHijacker
| Hijacker (conn : Conn) (e : option error).

(** Modelled from the spec: [removeProxyHeaders] lives outside https.go;
    it strips the hop-by-hop headers set by upstream proxy clients
    ([Proxy-Connection], [Proxy-Authorization], [Proxy-Authenticate]). *)
Definition removeProxyHeaders (ctx : ProxyCtx) (r : Request) : Request :=
  Request_with_Header r
    (Header_Del "Proxy-Authenticate"
       (Header_Del "Proxy-Authorization"
          (Header_Del "Proxy-Connection" (req_Header r)))).

(** The environment: what the network, the libraries and the
    declarations outside https.go answer. *)
Record Env : Type := mkEnv {
  (** The error, if any, of the effect recorded at a trace position. *)
  io_err : nat -> option error;
  (** [url.Parse] and the [String] method of a URL *)
  url_Parse : string -> Result URL;
  URL_String : URL -> string;
  (** Declared outside https.go. *)
  defaultTLSConfig : TlsConfig;
  GoproxyCa : Certificate;
  isWebSocketRequest : Request -> bool;
  (** [net.Dial]'s answer. *)
  net_Dial : string -> string -> Result Conn;
  (** [http.ReadResponse] on a connection, for a request. *)
  ReadResponse : Conn -> Request -> Result Response;
  (** [ctx.RoundTrip] *)
  RoundTrip : ProxyCtx -> Request -> Result Response;
  (** Whether a connection has [CloseWrite] and [CloseRead]. *)
  halfClosable : Conn -> bool;
  (** The ClientHello the TLS server reads during the handshake. *)
  client_hello : Result ClientHelloInfo
}.

(** ** Sample inputs *)

(** A small URL parser and printer, standing in for [url.Parse] and
    [URL.String] on the inputs of the examples. *)
Fixpoint split_scheme (s : string) : option (string * string) :=
  match s with
  | EmptyString => None
  | String c r =>
      if String.prefix "://" s then Some (EmptyString, slice_from s 3)
      else match split_scheme r with
           | Some (a, b) => Some (String c a, b)
           | None => None
           end
  end.

Fixpoint split_at_slash (s : string) : string * string :=
  match s with
  | EmptyString => (EmptyString, EmptyString)
  | String c r =>
      if Ascii.eqb c "/" then (EmptyString, s)
      else let '(h, p) := split_at_slash r in (String c h, p)
  end.

Definition sample_Parse (s : string) : Result URL :=
  if String.prefix ":" s then Fail (Err "missing protocol scheme")
  else if String.prefix "//" s then
    let '(h, p) := split_at_slash (slice_from s 2) in
    Ok (mkURL EmptyString EmptyString h p EmptyString)
  else match split_scheme s with
       | Some (sch, rest) =>
           let '(h, p) := split_at_slash rest in
           Ok (mkURL sch EmptyString h p EmptyString)
       | None => Ok (mkURL EmptyString EmptyString EmptyString s EmptyString)
       end.

Definition sample_String (u : URL) : string :=
  (if String.eqb (Scheme u) EmptyString then EmptyString else Scheme u +:+ ":")
  +:+ (if String.eqb (Scheme u) EmptyString && String.eqb (Host u) EmptyString
       then EmptyString else "//" +:+ Host u)
  +:+ Path u.

Definition sample_tls : TlsConfig :=
  {| InsecureSkipVerify := true; GetCertificate := None |}.

Definition sample_ca : Certificate := RootCA "goproxy".

Definition id_filterRequest (r : Request) (ctx : ProxyCtx)
  : Request * option Response := (r, None).
Definition id_filterResponse (r : Response) (ctx : ProxyCtx) : Response := r.

(** A proxy with the given CONNECT handlers and nothing else set. *)
Definition sample_proxy (handlers : list HttpsHandler) : ProxyHttpServer :=
  {| httpsHandlers := handlers; ConnectDial := None; Tr_DialContext := None;
     Tr_TLSClientConfig := sample_tls; CertStore := None;
     filterRequest := id_filterRequest; filterResponse := id_filterResponse |}.

(** [CONNECT example.com:443] from [10.0.0.7:5555]. *)
Definition sample_connect : Request :=
  {| Method := "CONNECT";
     req_URL := Some (mkURL EmptyString EmptyString "example.com:443"
                            EmptyString EmptyString);
     req_Host := "example.com:443"; req_Header := ∅;
     RemoteAddr := "10.0.0.7:5555" |}.

(** [GET path] as read inside the tunnel. *)
Definition sample_get (path : string) : Request :=
  {| Method := "GET";
     req_URL := Some (mkURL EmptyString EmptyString EmptyString path EmptyString);
     req_Host := "example.com"; req_Header := ∅; RemoteAddr := EmptyString |}.

Definition sample_response (code : Z) (status body : string) : Response :=
  {| Status := status; StatusCode := code;
     resp_Header := {[ "Content-Length" := [pretty (String.length body)];
                       "Content-Type" := ["text/plain"] ]};
     resp_Body := {| body_data := body; body_err := None |} |}.

Definition no_error : nat -> option error := fun _ => None.

(** The effect at position [k] fails, all others succeed. *)
Definition fails_at (k : nat) (msg : string) : nat -> option error :=
  fun n => if (n =? k)%nat then Some (Err msg) else None.

Definition dial_ok : string -> string -> Result Conn :=
  fun network addr => Ok (TCPConn network addr).
Definition dial_refused : string -> string -> Result Conn :=
  fun _ _ => Fail (Err "connection refused").

Definition no_websocket : Request -> bool := fun _ => false.
Definition no_halfclose : Conn -> bool := fun _ => false.
Definition tcp_halfclose (c : Conn) : bool :=
  match c with
  | ClientConn | TCPConn _ _ => true
  | _ => false
  end.

Definition world0 : World := {| trace := []; sess := 0 |}.

(** A refusal whose body breaks off. *)
Definition sample_truncated : Response :=
  {| Status := "403 Forbidden"; StatusCode := 403;
     resp_Header := {[ "Content-Length" := ["100"] ]};
     resp_Body := {| body_data := "no"; body_err := Some (Err "unexpected EOF") |} |}.

(** A request filter that sends every request to a mirror. *)
Definition mirror_URL : URL :=
  mkURL "https" EmptyString "mirror.example" "/index.html" EmptyString.
Definition mirror_filterRequest (r : Request) (ctx : ProxyCtx)
  : Request * option Response := (Request_with_URL r (Some mirror_URL), None).
Definition mirror_proxy : ProxyHttpServer :=
  {| httpsHandlers := []; ConnectDial := None; Tr_DialContext := None;
     Tr_TLSClientConfig := sample_tls; CertStore := None;
     filterRequest := mirror_filterRequest; filterResponse := id_filterResponse |}.

(** CONNECT handlers that decide at once. *)
Definition auth_handler : HttpsHandler :=
  fun host ctx =>
    (Some {| Action := ConnectProxyAuthHijack; Hijack := Some (HijackFn "auth");
             TLSConfig := None |}, host, ctx).
Definition broken_mitm_handler : HttpsHandler :=
  fun host ctx =>
    (Some {| Action := ConnectMitm; Hijack := None;
             TLSConfig := Some (fun _ _ => Fail (Err "no certificate")) |},
     host, ctx).

(** A handler that gives no decision, yet returns another host. *)
Definition pass_handler : HttpsHandler :=
  fun host ctx => (None, "elsewhere:1", ctx).

(** A handler that rejects with a 451 response left in the context. *)
Definition sample_451 : Response :=
  sample_response 451 "451 Unavailable For Legal Reasons" "blocked".
Definition reject_handler : HttpsHandler :=
  fun host ctx =>
    (Some {| Action := ConnectReject; Hijack := None; TLSConfig := None |}, host,
     {| Req := Req ctx; Resp := Some sample_451; Session := Session ctx;
        UserData := UserData ctx; certStore := certStore ctx |}).

Definition hijack_handler : HttpsHandler :=
  fun host ctx =>
    (Some {| Action := ConnectHijack; Hijack := Some (HijackFn "tunnel");
             TLSConfig := None |}, host, ctx).

(** A handler whose action is none of the six constants. *)
Definition odd_handler : HttpsHandler :=
  fun host ctx => (Some {| Action := 7%Z; Hijack := None; TLSConfig := None |}, host, ctx).

Definition http_mitm_action : ConnectAction :=
  {| Action := ConnectHTTPMitm; Hijack := None; TLSConfig := None |}.

(** Request filters that answer every request themselves, with a 451. *)
Definition canned_filterRequest (r : Request) (ctx : ProxyCtx)
  : Request * option Response := (r, Some sample_451).
Definition canned_proxy : ProxyHttpServer :=
  {| httpsHandlers := []; ConnectDial := None; Tr_DialContext := None;
     Tr_TLSClientConfig := sample_tls; CertStore := None;
     filterRequest := canned_filterRequest; filterResponse := id_filterResponse |}.

Definition sample_answer : Response := sample_response 200 "200 OK" "hello".

(** An environment where everything succeeds: direct dials connect, the
    upstream answers [200 OK] with body [hello], the client sends no SNI. *)
Definition sample_env : Env :=
  {| io_err := no_error;
     url_Parse := sample_Parse;
     URL_String := sample_String;
     defaultTLSConfig := sample_tls;
     GoproxyCa := sample_ca;
     isWebSocketRequest := no_websocket;
     net_Dial := dial_ok;
     ReadResponse := fun _ _ => Ok sample_answer;
     RoundTrip := fun _ _ => Ok sample_answer;
     halfClosable := tcp_halfclose;
     client_hello := Ok (mkHello EmptyString) |}.

Definition with_io_err (E : Env) (f : nat -> option error) : Env :=
  {| io_err := f;
     url_Parse := url_Parse E; URL_String := URL_String E;
     defaultTLSConfig := defaultTLSConfig E; GoproxyCa := GoproxyCa E;
     isWebSocketRequest := isWebSocketRequest E; net_Dial := net_Dial E;
     ReadResponse := ReadResponse E; RoundTrip := RoundTrip E;
     halfClosable := halfClosable E; client_hello := client_hello E |}.

Definition with_net_Dial (E : Env) (d : string -> string -> Result Conn) : Env :=
  {| io_err := io_err E;
     url_Parse := url_Parse E; URL_String := URL_String E;
     defaultTLSConfig := defaultTLSConfig E; GoproxyCa := GoproxyCa E;
     isWebSocketRequest := isWebSocketRequest E; net_Dial := d;
     ReadResponse := ReadResponse E; RoundTrip := RoundTrip E;
     halfClosable := halfClosable E; client_hello := client_hello E |}.

Definition with_ReadResponse (E : Env)
    (rr : Conn -> Request -> Result Response) : Env :=
  {| io_err := io_err E;
     url_Parse := url_Parse E; URL_String := URL_String E;
     defaultTLSConfig := defaultTLSConfig E; GoproxyCa := GoproxyCa E;
     isWebSocketRequest := isWebSocketRequest E; net_Dial := net_Dial E;
     ReadResponse := rr; RoundTrip := RoundTrip E;
     halfClosable := halfClosable E; client_hello := client_hello E |}.

Definition with_RoundTrip (E : Env)
    (rt : ProxyCtx -> Request -> Result Response) : Env :=
  {| io_err := io_err E;
     url_Parse := url_Parse E; URL_String := URL_String E;
     defaultTLSConfig := defaultTLSConfig E; GoproxyCa := GoproxyCa E;
     isWebSocketRequest := isWebSocketRequest E; net_Dial := net_Dial E;
     ReadResponse := ReadResponse E; RoundTrip := rt;
     halfClosable := halfClosable E; client_hello := client_hello E |}.

Definition with_url_Parse (E : Env) (parse : string -> Result URL) : Env :=
  {| io_err := io_err E;
     url_Parse := parse; URL_String := URL_String E;
     defaultTLSConfig := defaultTLSConfig E; GoproxyCa := GoproxyCa E;
     isWebSocketRequest := isWebSocketRequest E; net_Dial := net_Dial E;
     ReadResponse := ReadResponse E; RoundTrip := RoundTrip E;
     halfClosable := halfClosable E; client_hello := client_hello E |}.

Definition with_isWebSocketRequest (E : Env) (ws : Request -> bool) : Env :=
  {| io_err := io_err E;
     url_Parse := url_Parse E; URL_String := URL_String E;
     defaultTLSConfig := defaultTLSConfig E; GoproxyCa := GoproxyCa E;
     isWebSocketRequest := ws; net_Dial := net_Dial E;
     ReadResponse := ReadResponse E; RoundTrip := RoundTrip E;
     halfClosable := halfClosable E; client_hello := client_hello E |}.

Definition with_client_hello (E : Env) (hello : Result ClientHelloInfo) : Env :=
  {| io_err := io_err E;
     url_Parse := url_Parse E; URL_String := URL_String E;
     defaultTLSConfig := defaultTLSConfig E; GoproxyCa := GoproxyCa E;
     isWebSocketRequest := isWebSocketRequest E; net_Dial := net_Dial E;
     ReadResponse := ReadResponse E; RoundTrip := RoundTrip E;
     halfClosable := halfClosable E; client_hello := hello |}.

(** An environment with the two proxy variables set as given. *)
Definition sample_getenv (upper lower : string) : string -> string :=
  fun name =>
    if String.eqb name "HTTPS_PROXY" then upper
    else if String.eqb name "https_proxy" then lower
    else EmptyString.

(** A certificate store that is out of order, and a proxy that uses it. *)
Definition broken_store : CertStorage :=
  {| Fetch := fun _ _ => Fail (Err "store unavailable") |}.
Definition store_proxy : ProxyHttpServer :=
  {| httpsHandlers := []; ConnectDial := None; Tr_DialContext := None;
     Tr_TLSClientConfig := sample_tls; CertStore := Some broken_store;
     filterRequest := id_filterRequest; filterResponse := id_filterResponse |}.

(** [GET] with an absolute [https] URL. *)
Definition sample_get_https : Request :=
  {| Method := "GET";
     req_URL := Some (mkURL "https" EmptyString "example.com" "/x" EmptyString);
     req_Host := "example.com"; req_Header := ∅; RemoteAddr := EmptyString |}.

Section Env.

Variable E : Env.

Local Abbreviation io_err := (io_err E).
Local Abbreviation url_Parse := (url_Parse E).
Local Abbreviation URL_String := (URL_String E).
Local Abbreviation defaultTLSConfig := (defaultTLSConfig E).
Local Abbreviation GoproxyCa := (GoproxyCa E).
Local Abbreviation isWebSocketRequest := (isWebSocketRequest E).
Local Abbreviation net_Dial := (net_Dial E).
Local Abbreviation ReadResponse := (ReadResponse E).
Local Abbreviation RoundTrip := (RoundTrip E).
Local Abbreviation halfClosable := (halfClosable E).
Local Abbreviation client_hello := (client_hello E).

(** An effect whose error the code looks at. *)
Definition attempt (ev : Event) : M (option error) :=
  fun w => (io_err (length (trace w)),
            {| trace := trace w ++ [ev]; sess := sess w |}).

Definition net_Dial_io : Dialer :=
  fun network addr => emit (EvDial network addr);;; ret (net_Dial network addr).

Definition dial (proxy : ProxyHttpServer) : Dialer :=
  fun network addr =>
    match Tr_DialContext proxy with
    | Some d => d network addr
    | None => net_Dial_io network addr
    end.

Definition connectDial (proxy : ProxyHttpServer) : Dialer :=
  fun network addr =>
    match ConnectDial proxy with
    | None => dial proxy network addr
    | Some d => d network addr
    end.

Definition httpError (w : Conn) (ctx : ProxyCtx) (err : error) : M unit :=
  e1 <- attempt (EvWrite w ("HTTP/1.1 502 Bad Gateway" +:+ CRLF +:+ CRLF));;
  match e1 with
  | Some _ => emit (EvWarnf "Error responding to client: %s")
  | None => ret tt
  end;;;
  e2 <- attempt (EvClose w);;
  match e2 with
  | Some _ => emit (EvWarnf "Error closing client connection: %s")
  | None => ret tt
  end.

Definition copyOrWarn (ctx : ProxyCtx) (dst src : Conn) : M unit :=
  e1 <- attempt (EvCopy dst src);;
  match e1 with
  | Some _ => emit (EvWarnf "Error copying to client: %s")
  | None => ret tt
  end.

Definition copyAndClose (ctx : ProxyCtx) (dst src : Conn) : M unit :=
  e1 <- attempt (EvCopy dst src);;
  match e1 with
  | Some _ => emit (EvWarnf "Error copying to client: %s")
  | None => ret tt
  end;;;
  emit (EvCloseWrite dst);;;
  emit (EvCloseRead src).

(** What a spawned relay task does when it runs. *)
Definition runTask (ctx : ProxyCtx) (t : Task) : M unit :=
  match t with
  | GoCopyAndClose dst src => copyAndClose ctx dst src
  | GoCopyOrWarnBoth target client =>
      copyOrWarn ctx target client;;;
      copyOrWarn ctx client target;;;
      emit (EvClose client);;;
      emit (EvClose target)
  end.

(** ** Certificate forging *)

(** The body of the [GetCertificate] closure built by [TLSConfigFromCA]:
    the certificate or error it returns, and the closure's variables
    after the call. *)
Definition GetCertificate_call (cl : CertClosure) (hello : ClientHelloInfo)
  : M (Result Certificate * CertClosure) :=
  let serverName :=
    if negb (String.eqb (ServerName hello) EmptyString)
    then ServerName hello
    else cl_serverName cl in
  emit (EvLogf "signing for %s");;;
  let genCert := fun _ : unit => signHost (cl_ca cl) [serverName] in
  let res :=
    match certStore (cl_ctx cl) with
    | Some store => Fetch store serverName genCert
    | None => genCert tt
    end in
  ret (res, {| cl_ca := cl_ca cl; cl_ctx := cl_ctx cl;
               cl_serverName := serverName |}).

Definition TLSConfigFromCA (ca : Certificate)
  : string -> ProxyCtx -> Result TlsConfig :=
  fun host ctx =>
    let serverName := stripPort host in
    let config := TlsConfig_Clone defaultTLSConfig in
    Ok {| InsecureSkipVerify := InsecureSkipVerify config;
          GetCertificate :=
            Some {| cl_ca := ca; cl_ctx := ctx; cl_serverName := serverName |} |}.

(** [tls.Server(c, cfg).Handshake()]: the server reads the ClientHello,
    asks [cfg.GetCertificate] (when set) for the certificate, and
    completes the exchange.  Gives the error, if any, the certificate
    presented, and the configuration with the closure's variables as the
    call left them. *)
Definition Handshake (c : Conn) (cfg : TlsConfig)
  : M (option error * option Certificate * TlsConfig) :=
  match client_hello with
  | Fail e => emit (EvHandshake c);;; ret (Some e, None, cfg)
  | Ok hello =>
      match GetCertificate cfg with
      | None =>
          err <- attempt (EvHandshake c);;
          ret (err, None, cfg)
      | Some cl =>
          rc <- GetCertificate_call cl hello;;
          let cfg' := {| InsecureSkipVerify := InsecureSkipVerify cfg;
                         GetCertificate := Some rc.2 |} in
          match rc.1 with
          | Fail e => emit (EvHandshake c);;; ret (Some e, None, cfg')
          | Ok cert =>
              err <- attempt (EvHandshake c);;
              ret (err, Some cert, cfg')
          end
      end
  end.

(** ** Parent-proxy dialers *)

(** The CONNECT request both dialers build for [addr]. *)
Definition connectReq_for (addr : string) (connectReqHandler : option (Request -> Request))
  : Request :=
  let connectReq :=
    {| Method := "CONNECT";
       req_URL := Some (mkURL EmptyString addr EmptyString EmptyString EmptyString);
       req_Host := addr;
       req_Header := ∅;
       RemoteAddr := EmptyString |} in
  match connectReqHandler with
  | Some f => f connectReq
  | None => connectReq
  end.

(** The dialer returned for a parent proxy with scheme empty or [http]
    ([u_Host] is [u.Host] after port defaulting). *)
Definition httpProxyDialer (proxy : ProxyHttpServer) (u_Host : string)
    (connectReqHandler : option (Request -> Request)) : Dialer :=
  fun network addr =>
    let connectReq := connectReq_for addr connectReqHandler in
    rc <- dial proxy network u_Host;;
    match rc with
    | Fail err => ret (Fail err)
    | Ok c =>
        emit (EvWriteRequest c connectReq);;;
        match ReadResponse c connectReq with
        | Fail err => emit (EvClose c);;; ret (Fail err)
        | Ok resp =>
            if negb (StatusCode resp =? 200)%Z then
              let '(body, err) := ReadAll (resp_Body resp) in
              match err with
              | Some err =>
                  emit (EvBodyClose (resp_Body resp));;;
                  ret (Fail err)
              | None =>
                  emit (EvClose c);;;
                  emit (EvBodyClose (resp_Body resp));;;
                  ret (Fail (Err ("proxy refused connection" +:+ body)))
              end
            else
              emit (EvBodyClose (resp_Body resp));;;
              ret (Ok c)
        end
    end.

(** The dialer returned for a parent proxy with scheme [https] or [wss]. *)
Definition httpsProxyDialer (proxy : ProxyHttpServer) (u_Host : string)
    (connectReqHandler : option (Request -> Request)) : Dialer :=
  fun network addr =>
    rc <- dial proxy network u_Host;;
    match rc with
    | Fail err => ret (Fail err)
    | Ok c =>
        let c := TLSClient c (Tr_TLSClientConfig proxy) in
        let connectReq := connectReq_for addr connectReqHandler in
        emit (EvWriteRequest c connectReq);;;
        match ReadResponse c connectReq with
        | Fail err => emit (EvClose c);;; ret (Fail err)
        | Ok resp =>
            if negb (StatusCode resp =? 200)%Z then
              let '(body, err) := ReadAll (LimitReader (resp_Body resp) 500) in
              match err with
              | Some err =>
                  emit (EvBodyClose (resp_Body resp));;;
                  ret (Fail err)
              | None =>
                  emit (EvClose c);;;
                  emit (EvBodyClose (resp_Body resp));;;
                  ret (Fail (Err ("proxy refused connection" +:+ body)))
              end
            else
              emit (EvBodyClose (resp_Body resp));;;
              ret (Ok c)
        end
    end.

Definition NewConnectDialToProxyWithHandler (proxy : ProxyHttpServer)
    (https_proxy : string) (connectReqHandler : option (Request -> Request))
  : option Dialer :=
  match url_Parse https_proxy with
  | Fail _ => None
  | Ok u =>
      if String.eqb (Scheme u) EmptyString || String.eqb (Scheme u) "http" then
        let u := if negb (hasPort_MatchString (Host u))
                 then URL_with_Host u (Host u +:+ ":80") else u in
        Some (httpProxyDialer proxy (Host u) connectReqHandler)
      else if String.eqb (Scheme u) "https" || String.eqb (Scheme u) "wss" then
        let u := if negb (hasPort_MatchString (Host u))
                 then URL_with_Host u (Host u +:+ ":443") else u in
        Some (httpsProxyDialer proxy (Host u) connectReqHandler)
      else None
  end.

Definition NewConnectDialToProxy (proxy : ProxyHttpServer) (https_proxy : string)
  : option Dialer :=
  NewConnectDialToProxyWithHandler proxy https_proxy None.

(** [getenv] is [os.Getenv]. *)
Definition dialerFromEnv (getenv : string -> string) (proxy : ProxyHttpServer)
  : option Dialer :=
  let https_proxy := getenv "HTTPS_PROXY" in
  let https_proxy :=
    if String.eqb https_proxy EmptyString then getenv "https_proxy" else https_proxy in
  if String.eqb https_proxy EmptyString then None
  else NewConnectDialToProxy proxy https_proxy.

(** ** The TLS man-in-the-middle session *)

Definition HTTP_200_OK : string := "HTTP/1.0 200 OK" +:+ CRLF +:+ CRLF.
Definition HTTP_407 : string := "HTTP/1.1 407 Proxy Authentication Required" +:+ CRLF.
Definition HTTP_502 : string := "HTTP/1.1 502 Bad Gateway" +:+ CRLF +:+ CRLF.

(** The status line the session writes for [resp]. *)
Definition statusLine (resp : Response) : string :=
  let text := Status resp in
  let statusCode := Itoa (StatusCode resp) +:+ " " in
  let text := TrimPrefix text statusCode in
  "HTTP/1.1" +:+ " " +:+ statusCode +:+ text +:+ CRLF.

(** The header the session writes for [resp]. *)
Definition chunkedHeader (h : Header) : Header :=
  Header_Set "Connection" "close"
    (Header_Set "Transfer-Encoding" "chunked"
       (Header_Del "Content-Length" h)).

(** The closure that writes an inner response to the client (the
    [func() { ... }()] of the session loop).  [e] is the error variable of
    the enclosing [handleHttps], set by [Hijack()]; the result is the value
    the closure leaves in [err]. *)
Definition writeInnerResponse (e : option error) (rawClientTls : Conn)
    (resp : Response) : M (option error) :=
  let close_body := emit (EvBodyClose (resp_Body resp)) in
  err <- attempt (EvWrite rawClientTls (statusLine resp));;
  if bool_decide (err ≠ None) then
    emit (EvWarnf "Cannot write TLS response HTTP status from mitm'd client: %v");;;
    close_body;;; ret err
  else
  err <- attempt (EvWriteHeader rawClientTls (chunkedHeader (resp_Header resp)));;
  if bool_decide (err ≠ None) then
    emit (EvWarnf "Cannot write TLS response header from mitm'd client: %v");;;
    close_body;;; ret err
  else
  err <- attempt (EvWrite rawClientTls CRLF);;
  if bool_decide (err ≠ None) then
    emit (EvWarnf "Cannot write TLS response header end from mitm'd client: %v");;;
    close_body;;; ret err
  else
  err <- attempt (EvCopyChunked rawClientTls (resp_Body resp));;
  if bool_decide (e ≠ None) then
    emit (EvWarnf "Cannot write TLS response body from mitm'd client: %v");;;
    close_body;;; ret err
  else
  err <- attempt (EvChunkedClose rawClientTls);;
  if bool_decide (e ≠ None) then
    emit (EvWarnf "Cannot write TLS chunked EOF from mitm'd client: %v");;;
    close_body;;; ret err
  else
  err <- attempt (EvWrite rawClientTls CRLF);;
  if bool_decide (err ≠ None) then
    emit (EvWarnf "Cannot write TLS response chunked trailer from mitm'd client: %v");;;
    close_body;;; ret err
  else
  close_body;;; ret err.

(** One turn of the session loop on what [http.ReadRequest] gave:
    [Some o] when the goroutine ends with [o], [None] to go round again. *)
Definition mitmTLSRequest (proxy : ProxyHttpServer) (r : Request)
    (proxyCtx : ProxyCtx) (e : option error) (tlsConfig : TlsConfig)
    (rawClientTls : Conn) (rd : Result Request) : M (option Outcome) :=
  match rd with
  | Fail err =>
      if negb (error_eqb err io_EOF) then ret (Some Returned)
      else
        s <- nextSession;;
        emit (EvWarnf "Cannot read TLS request from mitm'd client %v %v");;;
        ret (Some Returned)
  | Ok req =>
      s <- nextSession;;
      let localProxyCtx :=
        {| Req := Some req; Resp := None; Session := s;
           UserData := UserData proxyCtx; certStore := None |} in
      let req := Request_with_RemoteAddr req (RemoteAddr r) in
      emit (EvLogf "req %v (%s)");;;
      match req_URL req with
      | None => ret (Some (Panicked "nil pointer dereference"))
      | Some u =>
          let '(req, err) :=
            if negb (httpsRegexp_MatchString (URL_String u)) then
              match url_Parse ("https://" +:+ req_Host r +:+ URL_String u) with
              | Ok u' => (Request_with_URL req (Some u'), None)
              | Fail perr => (Request_with_URL req None, Some perr)
              end
            else (req, None) in
          let localProxyCtx := ProxyCtx_with_Req localProxyCtx (Some req) in
          let '(req, resp) := filterRequest proxy req localProxyCtx in
          let respond (resp : Response) : M (option Outcome) :=
            let resp := filterResponse proxy resp localProxyCtx in
            werr <- writeInnerResponse e rawClientTls resp;;
            if bool_decide (werr ≠ None) then ret (Some Returned) else ret None in
          match resp with
          | Some resp => respond resp
          | None =>
              if isWebSocketRequest req then
                emit (EvLogf "Request looks like websocket upgrade.");;;
                emit (EvServeWebsocketTLS localProxyCtx req tlsConfig rawClientTls);;;
                ret (Some Returned)
              else if bool_decide (err ≠ None) then
                match req_URL req with
                | None => ret (Some (Panicked "nil pointer dereference"))
                | Some _ => emit (EvWarnf "Illegal URL %s");;; ret (Some Returned)
                end
              else
                let req := removeProxyHeaders localProxyCtx req in
                emit (EvRoundTrip localProxyCtx req);;;
                match RoundTrip localProxyCtx req with
                | Fail _ =>
                    emit (EvWarnf "Cannot read TLS response from mitm'd server %v");;;
                    ret (Some Returned)
                | Ok resp =>
                    emit (EvLogf "resp %v");;;
                    respond resp
                end
          end
      end
  end.

(** The session loop [for !isEof(clientTlsReader) { ... }] over what the
    client sends: one entry per [http.ReadRequest]; the reader is at its
    end when the list is. *)
Fixpoint mitmTLSLoop (proxy : ProxyHttpServer) (r : Request)
    (proxyCtx : ProxyCtx) (e : option error) (tlsConfig : TlsConfig)
    (rawClientTls : Conn) (reads : list (Result Request)) : M Outcome :=
  match reads with
  | [] => emit (EvLogf "Exiting on EOF");;; ret Returned
  | rd :: rest =>
      o <- mitmTLSRequest proxy r proxyCtx e tlsConfig rawClientTls rd;;
      match o with
      | Some out => ret out
      | None => mitmTLSLoop proxy r proxyCtx e tlsConfig rawClientTls rest
      end
  end.

(** The goroutine of the [ConnectMitm] case. *)
Definition mitmTLSSession (proxy : ProxyHttpServer) (r : Request)
    (proxyCtx : ProxyCtx) (e : option error) (tlsConfig : TlsConfig)
    (proxyResponseWriter : Conn) (reads : list (Result Request)) : M Outcome :=
  let rawClientTls := TLSServer proxyResponseWriter tlsConfig in
  hs <- Handshake rawClientTls tlsConfig;;
  let '(herr, _, tlsConfig) := hs in
  if bool_decide (herr ≠ None) then
    emit (EvWarnf "Cannot handshake client %v %v");;; ret Returned
  else
    out <- mitmTLSLoop proxy r proxyCtx e tlsConfig rawClientTls reads;;
    emit (EvClose rawClientTls);;;
    ret out.

(** ** The plain-HTTP man-in-the-middle loop *)

(** Run the deferred [resp.Body.Close()] calls, latest first. *)
Fixpoint runDeferred (deferred : list Body) : M unit :=
  match deferred with
  | [] => ret tt
  | b :: rest => emit (EvBodyClose b);;; runDeferred rest
  end.

(** One turn of the [ConnectHTTPMitm] loop: whether to go round again,
    and the deferred body closes. *)
Definition httpMitmRequest (proxy : ProxyHttpServer) (proxyCtx : ProxyCtx)
    (proxyResponseWriter targetSiteCon : Conn) (rd : Result Request)
    (deferred : list Body) : M (bool * list Body) :=
  match rd with
  | Fail err =>
      (if negb (error_eqb err io_EOF)
       then emit (EvWarnf "cannot read request of MITM HTTP client: %+#v")
       else ret tt);;;
      ret (false, deferred)
  | Ok req =>
      let '(req, resp) := filterRequest proxy req proxyCtx in
      let respond (resp : Response) (deferred : list Body) : M (bool * list Body) :=
        let resp := filterResponse proxy resp proxyCtx in
        werr <- attempt (EvWriteResponse proxyResponseWriter resp);;
        match werr with
        | Some err => httpError proxyResponseWriter proxyCtx err;;; ret (false, deferred)
        | None => ret (true, deferred)
        end in
      match resp with
      | Some resp => respond resp deferred
      | None =>
          werr <- attempt (EvWriteRequest targetSiteCon req);;
          match werr with
          | Some err => httpError proxyResponseWriter proxyCtx err;;; ret (false, deferred)
          | None =>
              match ReadResponse targetSiteCon req with
              | Fail err =>
                  httpError proxyResponseWriter proxyCtx err;;; ret (false, deferred)
              | Ok resp => respond resp (resp_Body resp :: deferred)
              end
          end
      end
  end.

Fixpoint httpMitmLoop (proxy : ProxyHttpServer) (proxyCtx : ProxyCtx)
    (proxyResponseWriter targetSiteCon : Conn) (reads : list (Result Request))
    (deferred : list Body) : M unit :=
  match reads with
  | [] =>
      st <- httpMitmRequest proxy proxyCtx proxyResponseWriter targetSiteCon
              (Fail io_EOF) deferred;;
      runDeferred st.2
  | rd :: rest =>
      st <- httpMitmRequest proxy proxyCtx proxyResponseWriter targetSiteCon
              rd deferred;;
      if st.1
      then httpMitmLoop proxy proxyCtx proxyResponseWriter targetSiteCon rest st.2
      else runDeferred st.2
  end.

(** ** CONNECT dispatch *)

Definition OkConnect : ConnectAction :=
  {| Action := ConnectAccept; Hijack := None;
     TLSConfig := Some (TLSConfigFromCA GoproxyCa) |}.
Definition MitmConnect : ConnectAction :=
  {| Action := ConnectMitm; Hijack := None;
     TLSConfig := Some (TLSConfigFromCA GoproxyCa) |}.
Definition HTTPMitmConnect : ConnectAction :=
  {| Action := ConnectHTTPMitm; Hijack := None;
     TLSConfig := Some (TLSConfigFromCA GoproxyCa) |}.
Definition RejectConnect : ConnectAction :=
  {| Action := ConnectReject; Hijack := None;
     TLSConfig := Some (TLSConfigFromCA GoproxyCa) |}.

(** The loop over [proxy.httpsHandlers]: the first handler with a
    decision wins. *)
Fixpoint findConnectHandler (handlers : list HttpsHandler)
    (todo : ConnectAction) (host : string) (proxyCtx : ProxyCtx)
  : M (ConnectAction * string * ProxyCtx) :=
  match handlers with
  | [] => ret (todo, host, proxyCtx)
  | h :: rest =>
      let '(newtodo, newhost, proxyCtx) := h host proxyCtx in
      match newtodo with
      | Some newtodo =>
          emit (EvLogf "on %dth handler: %v %s");;;
          ret (newtodo, newhost, proxyCtx)
      | None => findConnectHandler rest todo host proxyCtx
      end
  end.

(** The [ConnectAccept] case once [connectDial] has answered. *)
Definition acceptDialed (proxyCtx : ProxyCtx) (proxyResponseWriter : Conn)
    (rc : Result Conn) : M Outcome :=
  match rc with
  | Fail err => httpError proxyResponseWriter proxyCtx err;;; ret Returned
  | Ok targetSiteCon =>
      emit (EvLogf "Accepting CONNECT to %s");;;
      emit (EvWrite proxyResponseWriter HTTP_200_OK);;;
      if halfClosable targetSiteCon && halfClosable proxyResponseWriter then
        emit (EvGo (GoCopyAndClose targetSiteCon proxyResponseWriter));;;
        emit (EvGo (GoCopyAndClose proxyResponseWriter targetSiteCon));;;
        ret Returned
      else
        emit (EvGo (GoCopyOrWarnBoth targetSiteCon proxyResponseWriter));;;
        ret Returned
  end.

(** The [switch todo.Action] of [handleHttps].  [reads] is what the client
    sends once the tunnel is open (used by the two MITM cases); the TLS
    session goroutine is run to its end in place. *)
Definition connectSwitch (proxy : ProxyHttpServer) (r : Request)
    (proxyCtx : ProxyCtx) (e : option error) (proxyResponseWriter : Conn)
    (todo : ConnectAction) (host : string) (reads : list (Result Request))
  : M Outcome :=
  if (Action todo =? ConnectAccept)%Z then
    let host := if negb (hasPort_MatchString host) then host +:+ ":80" else host in
    rc <- connectDial proxy "tcp" host;;
    acceptDialed proxyCtx proxyResponseWriter rc
  else if (Action todo =? ConnectHijack)%Z then
    match Hijack todo with
    | None => ret (Panicked "nil pointer dereference")
    | Some f => emit (EvHijack f r proxyResponseWriter proxyCtx);;; ret Returned
    end
  else if (Action todo =? ConnectHTTPMitm)%Z then
    emit (EvWrite proxyResponseWriter HTTP_200_OK);;;
    emit (EvLogf "Assuming CONNECT is plain HTTP tunneling, mitm proxying it");;;
    rc <- connectDial proxy "tcp" host;;
    match rc with
    | Fail err => emit (EvWarnf "Error dialing to %s: %s");;; ret Returned
    | Ok targetSiteCon =>
        httpMitmLoop proxy proxyCtx proxyResponseWriter targetSiteCon reads [];;;
        ret Returned
    end
  else if (Action todo =? ConnectMitm)%Z then
    emit (EvWrite proxyResponseWriter HTTP_200_OK);;;
    emit (EvLogf "Assuming CONNECT is TLS, mitm proxying it");;;
    match TLSConfig todo with
    | None =>
        mitmTLSSession proxy r proxyCtx e defaultTLSConfig proxyResponseWriter reads
    | Some mk =>
        match mk host proxyCtx with
        | Fail err => httpError proxyResponseWriter proxyCtx err;;; ret Returned
        | Ok tlsConfig =>
            mitmTLSSession proxy r proxyCtx e tlsConfig proxyResponseWriter reads
        end
    end
  else if (Action todo =? ConnectProxyAuthHijack)%Z then
    emit (EvWrite proxyResponseWriter HTTP_407);;;
    match Hijack todo with
    | None => ret (Panicked "nil pointer dereference")
    | Some f => emit (EvHijack f r proxyResponseWriter proxyCtx);;; ret Returned
    end
  else if (Action todo =? ConnectReject)%Z then
    match Resp proxyCtx with
    | Some resp =>
        werr <- attempt (EvWriteResponse proxyResponseWriter resp);;
        match werr with
        | Some _ => emit (EvWarnf "Cannot write response that reject http CONNECT: %v")
        | None => ret tt
        end
    | None => ret tt
    end;;;
    emit (EvClose proxyResponseWriter);;;
    ret Returned
  else ret Returned.

(** The context [handleHttps] starts with, for session id [s]. *)
Definition newProxyCtx (proxy : ProxyHttpServer) (r : Request) (s : Z) : ProxyCtx :=
  {| Req := Some r; Resp := None; Session := s; UserData := None;
     certStore := CertStore proxy |}.

Definition handleHttps (proxy : ProxyHttpServer) (w : ResponseWriter)
    (r : Request) (reads : list (Result Request)) : M Outcome :=
  s <- nextSession;;
  let proxyCtx := newProxyCtx proxy r s in
  match w with
  | NotHijacker => ret (Panicked "httpserver does not support hijacking")
  | Hijacker proxyResponseWriter e =>
      match e with
      | Some (Err msg) => ret (Panicked ("Cannot hijack connection " +:+ msg))
      | None =>
          emit (EvLogf "Running %d CONNECT handlers");;;
          match req_URL r with
          | None => ret (Panicked "nil pointer dereference")
          | Some u =>
              sel <- findConnectHandler (httpsHandlers proxy) OkConnect (Host u) proxyCtx;;
              let '(todo, host, proxyCtx) := sel in
              connectSwitch proxy r proxyCtx e proxyResponseWriter todo host reads
          end
      end
  end.

(** ** Observing a run *)

(** The events a computation adds when started in [w]. *)
Definition events_of {A} (m : M A) (w : World) : list Event :=
  drop (length (trace w)) (trace (m w).2).

(** Connections that reach the hijacked client stream. *)
Fixpoint is_client (c : Conn) : bool :=
  match c with
  | ClientConn => true
  | TCPConn _ _ => false
  | TLSClient c _ => is_client c
  | TLSServer c _ => is_client c
  end.

(** Events that act on the client stream. *)
Definition on_client (ev : Event) : bool :=
  match ev with
  | EvLogf _ | EvWarnf _ | EvDial _ _ | EvBodyClose _ | EvRoundTrip _ _ => false
  | EvWrite c _ | EvWriteHeader c _ | EvWriteRequest c _ | EvWriteResponse c _
  | EvCopyChunked c _ | EvChunkedClose c | EvClose c
  | EvCloseWrite c | EvCloseRead c | EvHandshake c
  | EvHijack _ _ c _ | EvServeWebsocketTLS _ _ _ c => is_client c
  | EvCopy dst src => is_client dst || is_client src
  | EvGo (GoCopyAndClose dst src) => is_client dst || is_client src
  | EvGo (GoCopyOrWarnBoth target client) => is_client target || is_client client
  end.

Definition client_events (t : list Event) : list Event :=
  filter (fun ev => on_client ev = true) t.

(** The first address dialed. *)
Fixpoint first_dial (t : list Event) : option (string * string) :=
  match t with
  | [] => None
  | EvDial network addr :: _ => Some (network, addr)
  | _ :: rest => first_dial rest
  end.

(** The action, host and context the handler chain settles on. *)
Definition selected (proxy : ProxyHttpServer) (host : string) (proxyCtx : ProxyCtx)
  : ConnectAction * string * ProxyCtx :=
  (findConnectHandler (httpsHandlers proxy) OkConnect host proxyCtx
     {| trace := []; sess := 0 |}).1.

(** [w] with [evs] added to its trace. *)
Definition add_events (w : World) (evs : list Event) : World :=
  {| trace := trace w ++ evs; sess := sess w |}.

(** What a refusal by the parent proxy carries of a body: all of it, or
    its first [n] bytes. *)
Definition first_bytes (n : nat) (data : string) : string :=
  if (n <=? String.length data)%nat then slice_to data n else data.

(** The URLs of the requests sent upstream, in order. *)
Fixpoint round_trip_urls (t : list Event) : list (option URL) :=
  match t with
  | [] => []
  | EvRoundTrip _ rq :: rest => req_URL rq :: round_trip_urls rest
  | _ :: rest => round_trip_urls rest
  end.

(** The [HTTP/1.1] status lines written, in order. *)
Fixpoint status_lines (t : list Event) : list string :=
  match t with
  | [] => []
  | EvWrite _ data :: rest =>
      if String.prefix "HTTP/1.1 " data then data :: status_lines rest
      else status_lines rest
  | _ :: rest => status_lines rest
  end.

(** The warnings logged, in order. *)
Fixpoint warnings (t : list Event) : list string :=
  match t with
  | [] => []
  | EvWarnf format :: rest => format :: warnings rest
  | _ :: rest => warnings rest
  end.

(** Events that leave the client stream alone. *)
Definition off_client (ev : Event) : Prop := on_client ev = false.

(** A computation that only adds events, all of them satisfying [P]. *)
Definition emits_only {A} (P : Event -> Prop) (m : M A) : Prop :=
  forall w, exists evs, trace (m w).2 = trace w ++ evs /\ Forall P evs.

(** What the inner responses of a TLS session must look like on the wire:
    every header block written is chunked, closing, and without a length;
    every other write is a status line in HTTP/1.1 or a bare CRLF. *)
Definition inner_write_ok (ev : Event) : Prop :=
  match ev with
  | EvWriteHeader _ h =>
      h !! "Content-Length" = None /\
      h !! "Transfer-Encoding" = Some ["chunked"] /\
      h !! "Connection" = Some ["close"]
  | EvWrite _ data => data = CRLF \/ String.prefix "HTTP/1.1 " data = true
  | _ => True
  end.

(** * Properties *)

(** ** Examples *)

Example stripPort_ex1 : stripPort "example.com:443" = "example.com".
Proof. reflexivity. Qed.
Example stripPort_ex2 : stripPort "[::1]" = "[::1]".
Proof. reflexivity. Qed.
Example stripPort_ex3 : stripPort "a:1:22" = "a:1".
Proof. reflexivity. Qed.
Example Itoa_ex : Itoa 404 = "404".
Proof. vm_compute. reflexivity. Qed.
Example sample_Parse_ex1 :
  sample_Parse "http://parent:3128" =
    Ok (mkURL "http" EmptyString "parent:3128" EmptyString EmptyString).
Proof. reflexivity. Qed.
Example sample_Parse_ex2 :
  sample_Parse "https://example.com:443/index.html" =
    Ok (mkURL "https" EmptyString "example.com:443" "/index.html" EmptyString).
Proof. reflexivity. Qed.
Example sample_String_ex :
  sample_String (mkURL EmptyString EmptyString EmptyString "/index.html" EmptyString)
  = "/index.html".
Proof. reflexivity. Qed.


(** ** How computations add to the trace *)

Lemma events_of_app {A} (m : M A) w evs :
  trace (m w).2 = trace w ++ evs -> events_of m w = evs.
Proof. intros H. unfold events_of. rewrite H. apply drop_app_length. Qed.

Lemma emits_only_ret {A} P (a : A) : emits_only P (ret a).
Proof. intros w. exists []. simpl. rewrite app_nil_r. auto. Qed.

Lemma emits_only_emit P ev : P ev -> emits_only P (emit ev).
Proof. intros H w. exists [ev]. simpl. auto. Qed.

Lemma emits_only_attempt P ev : P ev -> emits_only P (attempt ev).
Proof. intros H w. exists [ev]. simpl. auto. Qed.

Lemma emits_only_nextSession P : emits_only P nextSession.
Proof. intros w. exists []. simpl. rewrite app_nil_r. auto. Qed.

Lemma emits_only_bind {A B} P (m : M A) (k : A -> M B) :
  emits_only P m -> (forall a, emits_only P (k a)) -> emits_only P (bind m k).
Proof.
  intros Hm Hk w. unfold bind.
  destruct (Hm w) as (e1 & H1 & F1). destruct (m w) as [a w1] eqn:Hrun.
  destruct (Hk a w1) as (e2 & H2 & F2). simpl in *.
  exists (e1 ++ e2). split.
  - rewrite H2, H1, app_assoc. reflexivity.
  - apply Forall_app; auto.
Qed.

Lemma emits_only_mono {A} (P Q : Event -> Prop) (m : M A) :
  (forall ev, P ev -> Q ev) -> emits_only P m -> emits_only Q m.
Proof.
  intros HPQ Hm w. destruct (Hm w) as (evs & H & F).
  exists evs. split; [exact H|]. eapply Forall_impl; eauto.
Qed.

Ltac emits_step :=
  match goal with
  | |- emits_only _ (bind _ _) => apply emits_only_bind; [|intros ?]
  | |- emits_only _ (ret _) => apply emits_only_ret
  | |- emits_only _ (emit _) => apply emits_only_emit; simpl; auto
  | |- emits_only _ (attempt _) => apply emits_only_attempt; simpl; auto
  | |- emits_only _ nextSession => apply emits_only_nextSession
  | |- emits_only _ (match ?x with _ => _ end) => destruct x
  end.

Ltac emits_auto := repeat emits_step.

Lemma emits_only_httpError P w ctx err :
  (forall ev, P ev) -> emits_only P (httpError w ctx err).
Proof. intros HP. unfold httpError. emits_auto. Qed.

Lemma emits_only_acceptDialed P ctx c rc :
  (forall ev, P ev) -> emits_only P (acceptDialed ctx c rc).
Proof.
  intros HP. unfold acceptDialed. destruct rc.
  - emits_auto.
  - emits_auto. apply emits_only_httpError; auto.
Qed.

(** ** Parent-proxy dialers: which one is returned *)

Lemma first_dial_net_Dial {A} network addr (k : Result Conn -> M A) w :
  (forall rc, emits_only (fun _ => True) (k rc)) ->
  first_dial (events_of (rc <- net_Dial_io network addr;; k rc) w)
  = Some (network, addr).
Proof.
  intros Hk.
  destruct (Hk (net_Dial network addr)
              {| trace := trace w ++ [EvDial network addr]; sess := sess w |})
    as (evs & H & _).
  rewrite (events_of_app _ w (EvDial network addr :: evs)); [reflexivity|].
  unfold bind, net_Dial_io, emit, ret. simpl. simpl in H.
  rewrite H, <- app_assoc. reflexivity.
Qed.

(** C10: an unparsable parent-proxy URL, or one whose scheme is none of
    empty, [http], [https], [wss], gives the nil dialer. *)
Theorem NewConnectDialToProxyWithHandler_nil proxy https_proxy handler :
  (exists e, url_Parse https_proxy = Fail e) \/
  (exists u, url_Parse https_proxy = Ok u /\
     Scheme u <> EmptyString /\ Scheme u <> "http" /\
     Scheme u <> "https" /\ Scheme u <> "wss") ->
  NewConnectDialToProxyWithHandler proxy https_proxy handler = None.
Proof.
  intros [[e He] | (u & Hu & H0 & H1 & H2 & H3)];
    unfold NewConnectDialToProxyWithHandler.
  - rewrite He. reflexivity.
  - rewrite Hu.
    apply String.eqb_neq in H0, H1, H2, H3.
    rewrite H0, H1, H2, H3. reflexivity.
Qed.

(** C7: port defaulting.  A CONNECT target without a [:port] suffix that
    goes through [ConnectAccept] is dialed with [:80] appended; a parent
    proxy URL without a port gets [:80] for the empty and [http] schemes
    and [:443] for [https] and [wss].  Each part is stated for the dial
    function in use and, when dialing is direct, for the address of the
    first dial recorded. *)
Theorem port_defaulting :
  (forall proxy r ctx e c todo host reads,
     Action todo = ConnectAccept ->
     hasPort_MatchString host = false ->
     connectSwitch proxy r ctx e c todo host reads
       = (rc <- connectDial proxy "tcp" (host +:+ ":80");; acceptDialed ctx c rc)
     /\ (ConnectDial proxy = None -> Tr_DialContext proxy = None ->
         forall w,
           first_dial (events_of (connectSwitch proxy r ctx e c todo host reads) w)
           = Some ("tcp", host +:+ ":80"))) /\
  (forall proxy https_proxy handler u,
     url_Parse https_proxy = Ok u ->
     Scheme u = EmptyString \/ Scheme u = "http" ->
     hasPort_MatchString (Host u) = false ->
     NewConnectDialToProxyWithHandler proxy https_proxy handler
       = Some (httpProxyDialer proxy (Host u +:+ ":80") handler)
     /\ (Tr_DialContext proxy = None ->
         forall network addr w,
           first_dial (events_of
             (httpProxyDialer proxy (Host u +:+ ":80") handler network addr) w)
           = Some (network, Host u +:+ ":80"))) /\
  (forall proxy https_proxy handler u,
     url_Parse https_proxy = Ok u ->
     Scheme u = "https" \/ Scheme u = "wss" ->
     hasPort_MatchString (Host u) = false ->
     NewConnectDialToProxyWithHandler proxy https_proxy handler
       = Some (httpsProxyDialer proxy (Host u +:+ ":443") handler)
     /\ (Tr_DialContext proxy = None ->
         forall network addr w,
           first_dial (events_of
             (httpsProxyDialer proxy (Host u +:+ ":443") handler network addr) w)
           = Some (network, Host u +:+ ":443"))).
Proof.
  split; [|split].
  - intros proxy r ctx e c todo host reads Hact Hport. split.
    + unfold connectSwitch. rewrite Hact, Hport. reflexivity.
    + intros HCD HDC w. unfold connectSwitch. rewrite Hact, Hport. simpl.
      unfold connectDial, dial. rewrite HCD, HDC.
      apply first_dial_net_Dial. intros rc.
      apply emits_only_acceptDialed; auto.
  - intros proxy s handler u Hu Hs Hport. split.
    + unfold NewConnectDialToProxyWithHandler. rewrite Hu, Hport.
      destruct Hs as [-> | ->]; reflexivity.
    + intros HDC network addr w. unfold httpProxyDialer, dial. rewrite HDC.
      apply first_dial_net_Dial. intros rc. emits_auto.
  - intros proxy s handler u Hu Hs Hport. split.
    + unfold NewConnectDialToProxyWithHandler. rewrite Hu, Hport.
      destruct Hs as [-> | ->]; reflexivity.
    + intros HDC network addr w. unfold httpsProxyDialer, dial. rewrite HDC.
      apply first_dial_net_Dial. intros rc. emits_auto.
Qed.

(** ** Parent-proxy dialers: the answer to CONNECT *)

Lemma LimitReader_data n b :
  body_data (LimitReader b n) = first_bytes n (body_data b).
Proof. unfold LimitReader, first_bytes. destruct (_ <=? _)%nat; reflexivity. Qed.

Lemma slice_to_length s n :
  (n <= String.length s)%nat -> String.length (slice_to s n) = n.
Proof.
  unfold slice_to. revert s. induction n as [|n IH]; intros s Hn.
  - destruct s; reflexivity.
  - destruct s as [|c s]; simpl in *; [lia|]. rewrite IH; [reflexivity|lia].
Qed.

Lemma first_bytes_length n data :
  (String.length (first_bytes n data) <= n)%nat.
Proof.
  unfold first_bytes. destruct (n <=? String.length data)%nat eqn:Hn.
  - apply Nat.leb_le in Hn. rewrite slice_to_length; lia.
  - apply Nat.leb_gt in Hn. lia.
Qed.

(** C3, amended: what the two parent-proxy dialers do with the parent's
    answer.  On 200 they return the connection the CONNECT was written to
    (the socket itself for the plain dialer, the TLS client over it for
    the HTTPS/WSS one).  On any other status, when the body is read
    without error (all of it for the plain dialer, at most its first 500
    bytes for the HTTPS/WSS one) they close the connection and fail with
    [proxy refused connection] followed by what was read; when reading
    the body fails they fail with the read error. *)
Theorem parent_proxy_answer proxy u_Host handler network addr w c w1 resp_plain resp_tls :
  dial proxy network u_Host w = (Ok c, w1) ->
  let connectReq := connectReq_for addr handler in
  let tc := TLSClient c (Tr_TLSClientConfig proxy) in
  ReadResponse c connectReq = Ok resp_plain ->
  ReadResponse tc connectReq = Ok resp_tls ->
  let plain := httpProxyDialer proxy u_Host handler network addr w in
  let tls := httpsProxyDialer proxy u_Host handler network addr w in
  let body := resp_Body resp_plain in
  let tbody := resp_Body resp_tls in
  (StatusCode resp_plain = 200%Z ->
     plain = (Ok c, add_events w1 [EvWriteRequest c connectReq; EvBodyClose body])) /\
  (StatusCode resp_plain <> 200%Z -> body_err body = None ->
     plain = (Fail (Err ("proxy refused connection" +:+ body_data body)),
              add_events w1 [EvWriteRequest c connectReq; EvClose c; EvBodyClose body])) /\
  (StatusCode resp_plain <> 200%Z -> forall err, body_err body = Some err ->
     plain.1 = Fail err) /\
  (StatusCode resp_tls = 200%Z ->
     tls = (Ok tc, add_events w1 [EvWriteRequest tc connectReq; EvBodyClose tbody])) /\
  (StatusCode resp_tls <> 200%Z ->
     body_err tbody = None \/ (500 <= String.length (body_data tbody))%nat ->
     tls = (Fail (Err ("proxy refused connection" +:+ first_bytes 500 (body_data tbody))),
            add_events w1 [EvWriteRequest tc connectReq; EvClose tc; EvBodyClose tbody])
     /\ (String.length (first_bytes 500 (body_data tbody)) <= 500)%nat) /\
  (StatusCode resp_tls <> 200%Z -> forall err,
     body_err tbody = Some err -> (String.length (body_data tbody) < 500)%nat ->
     tls.1 = Fail err).
Proof.
  intros Hdial connectReq tc Hplain Htls plain tls body tbody.
  subst plain tls. unfold httpProxyDialer, httpsProxyDialer, bind.
  rewrite Hdial. fold connectReq. fold tc. rewrite Hplain, Htls.
  fold body tbody. unfold add_events, emit, ret.
  repeat apply conj.
  - intros ->. simpl. rewrite <- app_assoc. reflexivity.
  - intros Hne Hb. apply Z.eqb_neq in Hne. rewrite Hne. simpl. rewrite Hb.
    simpl. rewrite <- !app_assoc. reflexivity.
  - intros Hne err Hb. apply Z.eqb_neq in Hne. rewrite Hne. simpl. rewrite Hb.
    reflexivity.
  - intros ->. simpl. rewrite <- app_assoc. reflexivity.
  - intros Hne Hb. apply Z.eqb_neq in Hne. rewrite Hne. simpl.
    rewrite LimitReader_data.
    assert (body_err (LimitReader tbody 500) = None) as ->.
    { unfold LimitReader. destruct Hb as [Hb|Hb].
      - destruct (_ <=? _)%nat; simpl; auto.
      - apply Nat.leb_le in Hb. rewrite Hb. reflexivity. }
    split; [|apply first_bytes_length].
    simpl. rewrite <- !app_assoc. reflexivity.
  - intros Hne err Hb Hlen. apply Z.eqb_neq in Hne. rewrite Hne. simpl.
    unfold LimitReader. apply Nat.leb_gt in Hlen. rewrite Hlen, Hb.
    reflexivity.
Qed.

(** ** Inner responses of a TLS session *)

Lemma prefix_empty s : String.prefix EmptyString s = true.
Proof. destruct s; reflexivity. Qed.

Lemma statusLine_prefix resp : String.prefix "HTTP/1.1 " (statusLine resp) = true.
Proof. unfold statusLine. simpl. apply prefix_empty. Qed.

Lemma chunkedHeader_lookup h :
  chunkedHeader h !! "Content-Length" = None /\
  chunkedHeader h !! "Transfer-Encoding" = Some ["chunked"] /\
  chunkedHeader h !! "Connection" = Some ["close"].
Proof.
  unfold chunkedHeader, Header_Set, Header_Del. repeat apply conj.
  - rewrite !lookup_insert_ne by discriminate. apply lookup_delete_eq.
  - rewrite lookup_insert_ne by discriminate. apply lookup_insert_eq.
  - apply lookup_insert_eq.
Qed.


(** The names on the wire are those of the header, each once. *)
Lemma Header_wire_lines_name (h : Header) line :
  line ∈ Header_wire_lines h ->
  exists k vs v, h !! k = Some vs /\ v ∈ vs /\ line = header_line k v.
Proof.
  unfold Header_wire_lines. intros H.
  apply list_elem_of_bind in H as ([k vs] & Hl & Hkv).
  rewrite merge_sort_Permutation in Hkv. apply elem_of_map_to_list in Hkv.
  unfold header_lines in Hl. simpl in Hl.
  apply list_elem_of_fmap in Hl as (v & -> & Hv). exists k, vs, v. auto.
Qed.

Lemma emits_only_writeInnerResponse e c resp :
  emits_only inner_write_ok (writeInnerResponse e c resp).
Proof.
  unfold writeInnerResponse.
  pose proof (chunkedHeader_lookup (resp_Header resp)).
  pose proof (statusLine_prefix resp).
  repeat (emits_step || case_bool_decide).
Qed.

Lemma emits_only_mitmTLSRequest proxy r ctx e cfg c rd :
  emits_only inner_write_ok (mitmTLSRequest proxy r ctx e cfg c rd).
Proof.
  unfold mitmTLSRequest.
  repeat (emits_step || case_bool_decide
          || apply emits_only_writeInnerResponse).
Qed.

Lemma emits_only_mitmTLSLoop proxy r ctx e cfg c reads :
  emits_only inner_write_ok (mitmTLSLoop proxy r ctx e cfg c reads).
Proof.
  induction reads as [|rd rest IH]; simpl.
  - emits_auto.
  - apply emits_only_bind; [apply emits_only_mitmTLSRequest|].
    intros [out|]; [apply emits_only_ret|exact IH].
Qed.

Lemma writeInnerResponse_events e c resp w :
  exists rest,
    events_of (writeInnerResponse e c resp) w = EvWrite c (statusLine resp) :: rest /\
    Forall inner_write_ok rest /\
    (forall c' h, EvWriteHeader c' h ∈ rest -> h = chunkedHeader (resp_Header resp)).
Proof.
  destruct (chunkedHeader_lookup (resp_Header resp)) as (H1 & H2 & H3).
  unfold writeInnerResponse, events_of, bind, attempt, emit, ret. simpl.
  repeat (case_bool_decide; simpl);
    rewrite <- ?app_assoc, drop_app_length; simpl;
    (eexists; split; [reflexivity|]);
    (split;
     [ repeat (constructor; [simpl; auto|]); constructor
     | intros c' h Hin;
       repeat (apply elem_of_cons in Hin as [Hin|Hin]; [congruence|]);
       inversion Hin ]).
Qed.


(** ** Certificate forging *)

Lemma all_digits_colon a b : all_digits (a +:+ String ":" b) = false.
Proof.
  induction a as [|c a IH]; simpl.
  - reflexivity.
  - rewrite IH. apply andb_false_r.
Qed.

Lemma port_here_colon c a b : port_here (String c a +:+ String ":" b) = false.
Proof.
  simpl. destruct a as [|d a]; simpl.
  - rewrite andb_false_r. reflexivity.
  - rewrite all_digits_colon, andb_false_r. reflexivity.
Qed.

Lemma hasPort_FindString_port h p :
  p <> EmptyString -> all_digits p = true ->
  hasPort_FindString (h +:+ String ":" p) = String ":" p.
Proof.
  intros Hp Hd. induction h as [|c h IH].
  - simpl. destruct p as [|d p]; [congruence|].
    simpl in Hd. rewrite Hd. reflexivity.
  - change (String c h +:+ String ":" p) with (String c (h +:+ String ":" p)).
    cbn [hasPort_FindString].
    change (String c (h +:+ String ":" p)) with (String c h +:+ String ":" p).
    rewrite port_here_colon. exact IH.
Qed.

Lemma slice_to_app a b : slice_to (a +:+ b) (String.length a) = a.
Proof.
  unfold slice_to. induction a as [|c a IH]; simpl.
  - destruct b; reflexivity.
  - rewrite IH. reflexivity.
Qed.

Lemma length_append a b :
  String.length (a +:+ b) = (String.length a + String.length b)%nat.
Proof. induction a; simpl; auto. Qed.

(** [stripPort] removes a trailing [:port]. *)
Lemma stripPort_port h p :
  p <> EmptyString -> all_digits p = true -> stripPort (h +:+ String ":" p) = h.
Proof.
  intros Hp Hd. unfold stripPort. rewrite hasPort_FindString_port by assumption.
  rewrite length_append.
  replace (String.length h + String.length (String ":" p) - String.length (String ":" p))%nat
    with (String.length h) by lia.
  apply slice_to_app.
Qed.

Lemma hasPort_FindString_none s :
  hasPort_MatchString s = false -> hasPort_FindString s = EmptyString.
Proof.
  induction s as [|c s IH]; [reflexivity|].
  cbn [hasPort_MatchString hasPort_FindString].
  destruct (port_here (String c s)); [discriminate|]. exact IH.
Qed.

Lemma slice_to_all s : slice_to s (String.length s) = s.
Proof. unfold slice_to. induction s; simpl; congruence. Qed.

(** [stripPort] leaves a host without [:port] as it is. *)
Lemma stripPort_no_port s : hasPort_MatchString s = false -> stripPort s = s.
Proof.
  intros H. unfold stripPort. rewrite hasPort_FindString_none by assumption.
  simpl. rewrite Nat.sub_0_r. apply slice_to_all.
Qed.

(** C4: the name a TLS MITM handshake forges a certificate for.  On the
    configuration [TLSConfigFromCA] returns for a CONNECT host, the
    [GetCertificate] callback signs for the ClientHello's SNI when that is
    not empty and for the host without its [:port] otherwise; the
    generator makes a certificate whose SAN list is exactly that name;
    with a certificate store the generator goes through [Fetch] under
    that name, without one it is called directly. *)
Theorem forged_server_name ca host ctx hello w :
  exists cfg cl,
    TLSConfigFromCA ca host ctx = Ok cfg /\
    GetCertificate cfg = Some cl /\
    let name :=
      if String.eqb (ServerName hello) EmptyString
      then stripPort host else ServerName hello in
    let genCert := fun _ : unit => signHost ca [name] in
    let run := (GetCertificate_call cl hello w).1 in
    cl_serverName run.2 = name /\
    (exists cert, genCert tt = Ok cert /\ SAN cert = [name]) /\
    match certStore ctx with
    | Some store => run.1 = Fetch store name genCert
    | None => run.1 = genCert tt
    end.
Proof.
  eexists _, _. split; [reflexivity|]. split; [reflexivity|].
  simpl. destruct (String.eqb (ServerName hello) EmptyString); simpl.
  - repeat apply conj; eauto. destruct (certStore ctx); reflexivity.
  - repeat apply conj; eauto. destruct (certStore ctx); reflexivity.
Qed.

(** The certificate a completed handshake presents, with no store. *)
Lemma Handshake_presents ca host ctx hello cfg c w :
  client_hello = Ok hello ->
  TLSConfigFromCA ca host ctx = Ok cfg ->
  certStore ctx = None ->
  io_err (S (length (trace w))) = None ->
  (Handshake c cfg w).1.1 =
    (None,
     Some (Leaf [if String.eqb (ServerName hello) EmptyString
                 then stripPort host else ServerName hello] ca)).
Proof.
  intros Hh Hcfg Hst Hio. injection Hcfg as <-.
  unfold Handshake. rewrite Hh. simpl.
  unfold bind, GetCertificate_call, emit, ret, attempt. simpl.
  rewrite Hst. simpl. rewrite length_app. simpl.
  rewrite Nat.add_1_r, Hio.
  destruct (String.eqb (ServerName hello) EmptyString); reflexivity.
Qed.

(** ** CONNECT dispatch *)

Lemma client_events_app t1 t2 :
  client_events (t1 ++ t2) = client_events t1 ++ client_events t2.
Proof. apply filter_app. Qed.

Lemma findConnectHandler_run handlers todo host ctx w :
  exists logs,
    client_events logs = [] /\
    findConnectHandler handlers todo host ctx w =
      ((findConnectHandler handlers todo host ctx {| trace := []; sess := 0 |}).1,
       add_events w logs).
Proof.
  revert ctx. induction handlers as [|h rest IH]; intros ctx; simpl.
  - exists []. split; [reflexivity|]. unfold ret, add_events.
    rewrite app_nil_r. destruct w; reflexivity.
  - destruct (h host ctx) as [[[newtodo|] newhost] ctx'].
    + exists [EvLogf "on %dth handler: %v %s"]. split; reflexivity.
    + apply IH.
Qed.

(** [handleHttps] only logs before it runs the switch on the action the
    handler chain settles on. *)
Lemma handleHttps_dispatch proxy c r u reads w todo host ctx :
  req_URL r = Some u ->
  selected proxy (Host u) (newProxyCtx proxy r (wrap64 (sess w + 1))) = (todo, host, ctx) ->
  exists logs,
    client_events logs = [] /\
    handleHttps proxy (Hijacker c None) r reads w =
      connectSwitch proxy r ctx None c todo host reads
        {| trace := trace w ++ logs; sess := wrap64 (sess w + 1) |}.
Proof.
  intros Hu Hsel. unfold handleHttps, bind, nextSession. simpl. rewrite Hu.
  match goal with |- context [findConnectHandler ?hs ?t ?h ?cx ?w1] =>
    destruct (findConnectHandler_run hs t h cx w1) as (logs & Hlogs & Hrun)
  end.
  unfold selected in Hsel. rewrite Hrun, Hsel.
  exists (EvLogf "Running %d CONNECT handlers" :: logs). split.
  - unfold client_events. rewrite filter_cons. simpl. exact Hlogs.
  - unfold add_events. simpl. rewrite <- app_assoc. reflexivity.
Qed.

(** C8: with action [ConnectProxyAuthHijack], the client stream sees
    exactly the 407 line (one CRLF, no blank line) and then one call of
    the action's [Hijack] callback with the request, the client stream
    and the context. *)
Theorem proxyAuthHijack_preface proxy r u reads w todo host ctx f :
  req_URL r = Some u ->
  selected proxy (Host u) (newProxyCtx proxy r (wrap64 (sess w + 1)))
    = (todo, host, ctx) ->
  Action todo = ConnectProxyAuthHijack ->
  Hijack todo = Some f ->
  client_events (events_of (handleHttps proxy (Hijacker ClientConn None) r reads) w)
    = [EvWrite ClientConn ("HTTP/1.1 407 Proxy Authentication Required" +:+ CRLF);
       EvHijack f r ClientConn ctx]
  /\ (handleHttps proxy (Hijacker ClientConn None) r reads w).1 = Returned.
Proof.
  intros Hu Hsel Hact Hhij.
  destruct (handleHttps_dispatch proxy ClientConn r u reads w todo host ctx Hu Hsel)
    as (logs & Hlogs & Hrun).
  unfold events_of. rewrite Hrun. unfold connectSwitch. rewrite Hact, Hhij. simpl.
  split; [|reflexivity].
  rewrite <- !app_assoc, drop_app_length, client_events_app, Hlogs. reflexivity.
Qed.

(** C9: with action [ConnectMitm] and a [TLSConfig] factory that fails,
    the client stream sees the 200 line, then the 502 line, then its
    close, whatever the writes and the close answer. *)
Theorem mitm_TLSConfig_error proxy r u reads w todo host ctx mk err :
  req_URL r = Some u ->
  selected proxy (Host u) (newProxyCtx proxy r (wrap64 (sess w + 1)))
    = (todo, host, ctx) ->
  Action todo = ConnectMitm ->
  TLSConfig todo = Some mk ->
  mk host ctx = Fail err ->
  client_events (events_of (handleHttps proxy (Hijacker ClientConn None) r reads) w)
    = [EvWrite ClientConn ("HTTP/1.0 200 OK" +:+ CRLF +:+ CRLF);
       EvWrite ClientConn ("HTTP/1.1 502 Bad Gateway" +:+ CRLF +:+ CRLF);
       EvClose ClientConn].
Proof.
  intros Hu Hsel Hact Hcfg Hmk.
  destruct (handleHttps_dispatch proxy ClientConn r u reads w todo host ctx Hu Hsel)
    as (logs & Hlogs & Hrun).
  unfold events_of. rewrite Hrun. unfold connectSwitch. rewrite Hact, Hcfg, Hmk. simpl.
  unfold httpError, bind, attempt, emit, ret. simpl.
  repeat match goal with
         | |- context [match io_err ?n with _ => _ end] => destruct (io_err n); simpl
         end;
    rewrite <- !app_assoc, drop_app_length, client_events_app, Hlogs; reflexivity.
Qed.

(** ** The first bytes the client gets *)

Lemma emits_only_any {A} P (m : M A) :
  emits_only P m -> emits_only (fun _ => True) m.
Proof. apply emits_only_mono. auto. Qed.

Lemma emits_only_Handshake c cfg : emits_only (fun _ => True) (Handshake c cfg).
Proof. unfold Handshake, GetCertificate_call. emits_auto. Qed.

Lemma emits_only_mitmTLSSession proxy r ctx e cfg c reads :
  emits_only (fun _ => True) (mitmTLSSession proxy r ctx e cfg c reads).
Proof.
  unfold mitmTLSSession. apply emits_only_bind; [apply emits_only_Handshake|].
  intros [[herr cert] cfg']. case_bool_decide; emits_auto.
  eapply emits_only_any, emits_only_mitmTLSLoop.
Qed.

Lemma emits_only_runDeferred d : emits_only (fun _ => True) (runDeferred d).
Proof. induction d; simpl; emits_auto. exact IHd. Qed.

Lemma emits_only_httpMitmRequest proxy ctx c target rd d :
  emits_only (fun _ => True) (httpMitmRequest proxy ctx c target rd d).
Proof.
  unfold httpMitmRequest.
  repeat (emits_step || (apply emits_only_httpError; auto)).
Qed.

Lemma emits_only_httpMitmLoop proxy ctx c target reads d :
  emits_only (fun _ => True) (httpMitmLoop proxy ctx c target reads d).
Proof.
  revert d. induction reads as [|rd rest IH]; intros d; cbn [httpMitmLoop].
  - apply emits_only_bind; [apply emits_only_httpMitmRequest|].
    intros st. apply emits_only_runDeferred.
  - apply emits_only_bind; [apply emits_only_httpMitmRequest|].
    intros [[] d']; simpl; [apply IH|apply emits_only_runDeferred].
Qed.

Lemma events_of_emit_bind {A} ev (k : M A) w :
  emits_only (fun _ => True) k ->
  exists evs, events_of (emit ev;;; k) w = ev :: evs.
Proof.
  intros Hk.
  destruct (Hk {| trace := trace w ++ [ev]; sess := sess w |}) as (evs & H & _).
  exists evs. apply events_of_app. unfold bind, emit. simpl. simpl in H.
  rewrite H, <- app_assoc. reflexivity.
Qed.

Lemma client_events_off t : Forall off_client t -> client_events t = [].
Proof.
  induction 1 as [|ev t Hev _ IH]; [reflexivity|].
  unfold client_events. rewrite filter_cons.
  destruct (decide (on_client ev = true)) as [Hon|_]; [|exact IH].
  unfold off_client in Hev. congruence.
Qed.

Lemma off_client_not_in t c data :
  is_client c = true -> Forall off_client t -> EvWrite c data ∉ t.
Proof.
  intros Hc Hall Hin. rewrite Forall_forall in Hall.
  specialize (Hall _ Hin). unfold off_client in Hall. simpl in Hall. congruence.
Qed.

(** C2, amended: the first bytes the client stream gets from the switch
    on the action.  For [ConnectHTTPMitm] and [ConnectMitm] they are the
    200 line.  For [ConnectAccept] they are the 200 line when the dial to
    the target succeeds; when it fails they are the 502 line and no 200
    line is written.  The dial function is one that leaves the client
    stream alone. *)
Theorem first_client_write proxy r ctx e todo host reads w :
  (forall network addr, emits_only off_client (connectDial proxy network addr)) ->
  let evs := events_of (connectSwitch proxy r ctx e ClientConn todo host reads) w in
  let addr := if hasPort_MatchString host then host else host +:+ ":80" in
  (Action todo = ConnectHTTPMitm \/ Action todo = ConnectMitm ->
     head (client_events evs)
       = Some (EvWrite ClientConn ("HTTP/1.0 200 OK" +:+ CRLF +:+ CRLF))) /\
  (Action todo = ConnectAccept ->
     forall target, (connectDial proxy "tcp" addr w).1 = Ok target ->
     head (client_events evs)
       = Some (EvWrite ClientConn ("HTTP/1.0 200 OK" +:+ CRLF +:+ CRLF))) /\
  (Action todo = ConnectAccept ->
     forall err, (connectDial proxy "tcp" addr w).1 = Fail err ->
     head (client_events evs)
       = Some (EvWrite ClientConn ("HTTP/1.1 502 Bad Gateway" +:+ CRLF +:+ CRLF))
     /\ EvWrite ClientConn ("HTTP/1.0 200 OK" +:+ CRLF +:+ CRLF) ∉ evs).
Proof.
  intros Hquiet evs addr. subst evs. repeat apply conj.
  - intros [Hact|Hact]; unfold connectSwitch; rewrite Hact; simpl.
    + match goal with |- context [events_of (emit ?ev;;; ?k) w] =>
        destruct (events_of_emit_bind ev k w) as (evs & ->)
      end; [|reflexivity].
      emits_auto.
      * eapply emits_only_any, Hquiet.
      * apply emits_only_httpMitmLoop.
    + match goal with |- context [events_of (emit ?ev;;; ?k) w] =>
        destruct (events_of_emit_bind ev k w) as (evs & ->)
      end; [|reflexivity].
      emits_auto; try apply emits_only_mitmTLSSession.
      apply emits_only_httpError; auto.
  - intros Hact target Hdial. unfold connectSwitch. rewrite Hact. simpl.
    replace (if negb (hasPort_MatchString host) then host +:+ ":80" else host)
      with addr by (subst addr; destruct (hasPort_MatchString host); reflexivity).
    destruct (Hquiet "tcp" addr w) as (e1 & Ht & Hoff).
    unfold events_of, bind. destruct (connectDial proxy "tcp" addr w) as [rc w1].
    simpl in Hdial, Ht. subst rc. unfold acceptDialed, bind, emit, ret. simpl.
    destruct (halfClosable target && halfClosable ClientConn); simpl;
      rewrite Ht, <- !app_assoc, drop_app_length, client_events_app,
        (client_events_off _ Hoff); reflexivity.
  - intros Hact err Hdial. unfold connectSwitch. rewrite Hact. simpl.
    replace (if negb (hasPort_MatchString host) then host +:+ ":80" else host)
      with addr by (subst addr; destruct (hasPort_MatchString host); reflexivity).
    destruct (Hquiet "tcp" addr w) as (e1 & Ht & Hoff).
    unfold events_of, bind. destruct (connectDial proxy "tcp" addr w) as [rc w1].
    simpl in Hdial, Ht. subst rc.
    unfold acceptDialed, httpError, bind, attempt, emit, ret. simpl.
    pose proof (off_client_not_in e1 ClientConn
                  ("HTTP/1.0 200 OK" +:+ CRLF +:+ CRLF) eq_refl Hoff) as Hnot.
    repeat match goal with
           | |- context [match io_err ?n with _ => _ end] => destruct (io_err n); simpl
           end;
      rewrite Ht, <- !app_assoc, drop_app_length, client_events_app,
        (client_events_off _ Hoff);
      (split; [reflexivity|]);
      rewrite elem_of_app; (intros [Hin|Hin]; [exact (Hnot Hin)|]);
      repeat (apply elem_of_cons in Hin as [Hin|Hin]; [discriminate|]);
      inversion Hin.
Qed.

(** ** The upstream request of an inner request *)

Lemma removeProxyHeaders_URL ctx rq : req_URL (removeProxyHeaders ctx rq) = req_URL rq.
Proof. reflexivity. Qed.

Lemma round_trip_urls_app t1 t2 :
  round_trip_urls (t1 ++ t2) = round_trip_urls t1 ++ round_trip_urls t2.
Proof.
  induction t1 as [|ev t1 IH]; [reflexivity|].
  destruct ev; simpl; rewrite ?IH; reflexivity.
Qed.

Lemma round_trip_urls_inner t :
  Forall (fun ev => forall x rq, ev <> EvRoundTrip x rq) t -> round_trip_urls t = [].
Proof.
  induction 1 as [|ev t Hev _ IH]; [reflexivity|].
  destruct ev; simpl; auto. exfalso. eapply Hev. reflexivity.
Qed.

Lemma emits_only_writeInnerResponse_no_trip e c resp :
  emits_only (fun ev => forall x rq, ev <> EvRoundTrip x rq)
    (writeInnerResponse e c resp).
Proof.
  unfold writeInnerResponse.
  repeat (emits_step || case_bool_decide); discriminate.
Qed.

(** C6, amended: an inner request whose URL does not begin with
    [https://] is handed to the request filters with the URL parsed from
    [https://], the outer CONNECT request's host and the inner request's
    URL string.  When the filters give no response and the request is not
    a WebSocket upgrade, one upstream round trip is made, with the URL of
    the request the filters returned: the URL above whenever the filters
    left it as it was. *)
Theorem upstream_url proxy r ctx e cfg c req u u' req2 w :
  req_URL req = Some u ->
  httpsRegexp_MatchString (URL_String u) = false ->
  url_Parse ("https://" +:+ req_Host r +:+ URL_String u) = Ok u' ->
  let req1 :=
    Request_with_URL (Request_with_RemoteAddr req (RemoteAddr r)) (Some u') in
  let localProxyCtx :=
    {| Req := Some req1; Resp := None; Session := wrap64 (sess w + 1);
       UserData := UserData ctx; certStore := None |} in
  filterRequest proxy req1 localProxyCtx = (req2, None) ->
  isWebSocketRequest req2 = false ->
  let evs := events_of (mitmTLSRequest proxy r ctx e cfg c (Ok req)) w in
  round_trip_urls evs = [req_URL req2] /\
  (req_URL req2 = req_URL req1 -> round_trip_urls evs = [Some u']).
Proof.
  intros Hu Hre Hparse req1 lctx Hfilter Hws evs.
  assert (round_trip_urls evs = [req_URL req2]) as Hurls.
  2:{ split; [exact Hurls|]. intros Heq. rewrite Hurls, Heq. reflexivity. }
  subst evs. unfold events_of, mitmTLSRequest, bind, nextSession. simpl.
  rewrite Hu, Hre. simpl. rewrite Hparse.
  unfold ProxyCtx_with_Req. simpl. fold req1. fold lctx.
  rewrite Hfilter, Hws. simpl.
  unfold bind, emit. simpl.
  destruct (RoundTrip lctx (removeProxyHeaders lctx req2)) as [resp|rerr]; simpl.
  - match goal with |- context [writeInnerResponse ?e ?c ?rsp ?w1] =>
      destruct (emits_only_writeInnerResponse_no_trip e c rsp w1) as (evs & Ht & Hno);
      destruct (writeInnerResponse e c rsp w1) as [werr w2]
    end.
    simpl in Ht. case_bool_decide; simpl;
    rewrite Ht; simpl; rewrite <- !app_assoc, drop_app_length; simpl;
    rewrite (round_trip_urls_inner _ Hno); reflexivity.
  - rewrite <- !app_assoc, drop_app_length. reflexivity.
Qed.

(** ** Write errors in the session loop *)

(** With the enclosing error variable nil, as it is whenever the session
    runs, and the status line, the header block and the blank line
    written, the closure leaves in [err] the outcome of the last write:
    what the body copy and the chunked close answered is dropped. *)
Lemma writeInnerResponse_err c resp w :
  let n := length (trace w) in
  io_err n = None -> io_err (n + 1) = None -> io_err (n + 2) = None ->
  (writeInnerResponse None c resp w).1 = io_err (n + 5).
Proof.
  intros n H0 H1 H2. subst n.
  unfold writeInnerResponse, bind, attempt, emit, ret. simpl.
  rewrite H0. simpl. rewrite !length_app. simpl.
  rewrite H1. simpl. rewrite !length_app. simpl.
  replace (length (trace w) + 1 + 1) with (length (trace w) + 2) by lia.
  rewrite H2. simpl. rewrite !length_app. simpl.
  replace (length (trace w) + 1 + 1 + 1 + 1 + 1) with (length (trace w) + 5) by lia.
  destruct (io_err (length (trace w) + 5)); reflexivity.
Qed.

(** Direct dialing leaves the client stream alone. *)
Lemma connectDial_direct_quiet proxy :
  ConnectDial proxy = None -> Tr_DialContext proxy = None ->
  forall network addr, emits_only off_client (connectDial proxy network addr).
Proof.
  intros HCD HDC network addr. unfold connectDial, dial. rewrite HCD, HDC.
  unfold net_Dial_io. emits_auto. reflexivity.
Qed.


(** * Further properties *)

(** ** Hosts and ports *)

Lemma port_here_shape s :
  port_here s = true ->
  exists p, s = String ":" p /\ p <> EmptyString /\ all_digits p = true.
Proof.
  destruct s as [|c [|d r]]; simpl; try discriminate.
  intros H. apply andb_prop in H as [H Hr]. apply andb_prop in H as [Hc Hd].
  apply Ascii.eqb_eq in Hc. subst c.
  exists (String d r). split; [reflexivity|]. split; [discriminate|].
  simpl. rewrite Hd, Hr. reflexivity.
Qed.

Lemma hasPort_FindString_suffix s :
  exists pre, s = pre +:+ hasPort_FindString s.
Proof.
  induction s as [|c s [pre IH]].
  - exists EmptyString. reflexivity.
  - cbn [hasPort_FindString]. destruct (port_here (String c s)).
    + exists EmptyString. reflexivity.
    + exists (String c pre).
      change (String c s = String c (pre +:+ hasPort_FindString s)).
      f_equal. exact IH.
Qed.

Lemma hasPort_FindString_shape s :
  hasPort_FindString s = EmptyString \/
  exists p, hasPort_FindString s = String ":" p /\ p <> EmptyString /\ all_digits p = true.
Proof.
  induction s as [|c s IH]; [left; reflexivity|].
  cbn [hasPort_FindString]. destruct (port_here (String c s)) eqn:Hp.
  - right. apply port_here_shape. exact Hp.
  - exact IH.
Qed.

Lemma hasPort_MatchString_FindString s :
  hasPort_MatchString s = negb (String.eqb (hasPort_FindString s) EmptyString).
Proof.
  induction s as [|c s IH]; [reflexivity|].
  cbn [hasPort_MatchString hasPort_FindString].
  destruct (port_here (String c s)) eqn:Hp; [|exact IH].
  reflexivity.
Qed.

Lemma append_empty_r s : s +:+ EmptyString = s.
Proof.
  induction s as [|c s IH]; [reflexivity|].
  change (String c (s +:+ EmptyString) = String c s). rewrite IH. reflexivity.
Qed.

(** X1: [stripPort] cuts a host into what it returns and the port
    [hasPort] finds: the two put together give the host back, the port is
    empty or a colon followed by digits only, and the host is returned
    unchanged exactly when [hasPort] does not match it. *)
Theorem stripPort_split s :
  stripPort s +:+ hasPort_FindString s = s /\
  (hasPort_FindString s = EmptyString \/
   exists p, hasPort_FindString s = String ":" p /\ p <> EmptyString /\
             all_digits p = true) /\
  (stripPort s = s <-> hasPort_MatchString s = false).
Proof.
  assert (stripPort s +:+ hasPort_FindString s = s) as Hsplit.
  { destruct (hasPort_FindString_suffix s) as [pre Hpre].
    unfold stripPort. remember (hasPort_FindString s) as port eqn:Hport.
    clear Hport. subst s. rewrite length_append.
    replace (String.length pre + String.length port - String.length port)%nat
      with (String.length pre) by lia.
    rewrite slice_to_app. reflexivity. }
  split; [exact Hsplit|]. split; [apply hasPort_FindString_shape|].
  rewrite hasPort_MatchString_FindString. split.
  - intros Heq. rewrite Heq in Hsplit.
    assert (String.length (s +:+ hasPort_FindString s) = String.length s) as Hlen
      by (rewrite Hsplit; reflexivity).
    rewrite length_append in Hlen.
    destruct (hasPort_FindString s); [reflexivity|simpl in Hlen; lia].
  - intros Hno. apply negb_false_iff, String.eqb_eq in Hno.
    rewrite Hno, append_empty_r in Hsplit. exact Hsplit.
Qed.

(** X2: a host that ends in a colon and digits is matched by [hasPort],
    and [stripPort] gives back what stands before that colon, colons in
    it included (as in [[::1]:443]). *)
Theorem stripPort_strips_port h p :
  p <> EmptyString -> all_digits p = true ->
  hasPort_MatchString (h +:+ String ":" p) = true /\
  stripPort (h +:+ String ":" p) = h.
Proof.
  intros Hp Hd. split; [|apply stripPort_port; assumption].
  rewrite hasPort_MatchString_FindString, hasPort_FindString_port by assumption.
  reflexivity.
Qed.

(** ** Framing of inner responses *)

Lemma prefix_append p t : String.prefix p (p +:+ t) = true.
Proof.
  induction p as [|a p IH]; [apply prefix_empty|].
  change (String a p +:+ t) with (String a (p +:+ t)). cbn [String.prefix].
  destruct (ascii_dec a a); [exact IH|congruence].
Qed.

Lemma slice_from_append p t : slice_from (p +:+ t) (String.length p) = t.
Proof.
  unfold slice_from. rewrite length_append.
  replace (String.length p + String.length t - String.length p)%nat
    with (String.length t) by lia.
  induction p as [|a p IH]; [apply slice_to_all|exact IH].
Qed.

Lemma append_assoc a b c : (a +:+ b) +:+ c = a +:+ (b +:+ c).
Proof.
  induction a as [|x a IH]; [reflexivity|].
  change (String x ((a +:+ b) +:+ c) = String x (a +:+ (b +:+ c))).
  rewrite IH. reflexivity.
Qed.

Lemma TrimPrefix_append p t : TrimPrefix (p +:+ t) p = t.
Proof. unfold TrimPrefix. rewrite prefix_append. apply slice_from_append. Qed.

(** X3: the status line of an inner response carries the status code
    once.  When the response's [Status] starts with the code and a blank,
    as [200 OK] does, the line is [HTTP/1.1], a blank and that status;
    when it does not, the code and a blank are put before it. *)
Theorem statusLine_code_once resp :
  let code := Itoa (StatusCode resp) in
  (forall text, Status resp = code +:+ " " +:+ text ->
     statusLine resp = "HTTP/1.1 " +:+ code +:+ " " +:+ text +:+ CRLF) /\
  (String.prefix (code +:+ " ") (Status resp) = false ->
     statusLine resp = "HTTP/1.1 " +:+ code +:+ " " +:+ Status resp +:+ CRLF).
Proof.
  intros code. split.
  - intros text Hs. unfold statusLine. rewrite Hs. fold code.
    rewrite <- (append_assoc code " " text).
    rewrite TrimPrefix_append, append_assoc. reflexivity.
  - intros Hno. unfold statusLine, TrimPrefix. fold code. rewrite Hno.
    rewrite append_assoc. reflexivity.
Qed.


(** X5: the closure that writes an inner response closes the response
    body on every path, once, as its last effect: whichever write fails,
    and whatever the enclosing error variable holds. *)
Theorem writeInnerResponse_closes_body e c resp w :
  exists pre,
    events_of (writeInnerResponse e c resp) w = pre ++ [EvBodyClose (resp_Body resp)] /\
    Forall (fun ev => forall b, ev <> EvBodyClose b) pre.
Proof.
  unfold writeInnerResponse, events_of, bind, attempt, emit, ret. simpl.
  repeat (case_bool_decide; simpl);
    rewrite <- ?app_assoc, drop_app_length; simpl;
    match goal with
    | |- exists pre, ?l = pre ++ [?x] /\ _ =>
        exists (removelast l); split;
        [reflexivity | repeat (constructor; [discriminate|]); constructor]
    end.
Qed.

(** X6: when the enclosing error variable is nil and all six writes
    succeed, an inner response goes out as the status line, the header
    block, a blank line, the body through the chunked writer, the chunked
    writer's close and a last CRLF, after which the body is closed and no
    error is left. *)
Theorem writeInnerResponse_success c resp w :
  (forall k, (k < 6)%nat -> io_err (length (trace w) + k) = None) ->
  (writeInnerResponse None c resp w).1 = None /\
  events_of (writeInnerResponse None c resp) w =
    [EvWrite c (statusLine resp);
     EvWriteHeader c (chunkedHeader (resp_Header resp));
     EvWrite c CRLF;
     EvCopyChunked c (resp_Body resp);
     EvChunkedClose c;
     EvWrite c CRLF;
     EvBodyClose (resp_Body resp)].
Proof.
  intros Hok.
  pose proof (Hok 0 ltac:(lia)) as H0. pose proof (Hok 1 ltac:(lia)) as H1.
  pose proof (Hok 2 ltac:(lia)) as H2. pose proof (Hok 5 ltac:(lia)) as H5.
  rewrite Nat.add_comm in H0, H1, H2, H5. simpl in H0, H1, H2, H5.
  unfold writeInnerResponse, events_of, bind, attempt, emit, ret. simpl.
  rewrite ?length_app, ?Nat.add_1_r. simpl.
  rewrite H0. simpl. rewrite ?length_app, ?Nat.add_1_r. simpl.
  rewrite H1. simpl. rewrite ?length_app, ?Nat.add_1_r. simpl.
  rewrite H2. simpl. rewrite ?length_app, ?Nat.add_1_r. simpl.
  rewrite H5. simpl. split; [reflexivity|].
  rewrite <- !app_assoc, drop_app_length. reflexivity.
Qed.

(** ** The handler chain *)

(** X7: the first CONNECT handler with a decision wins.  When the
    handlers before it give none, the action, the host and the context
    are the ones it returns on the original host and on the context as
    the earlier handlers left it; the handlers after it are not asked,
    and what the earlier ones returned as host is dropped. *)
Theorem first_decision_wins (before after : list HttpsHandler) (h : HttpsHandler)
    todo host ctx newtodo newhost ctx' w :
  Forall (fun h0 : HttpsHandler => forall c, (h0 host c).1.1 = None) before ->
  h host (foldl (fun c (h0 : HttpsHandler) => (h0 host c).2) ctx before)
    = (Some newtodo, newhost, ctx') ->
  findConnectHandler (before ++ h :: after) todo host ctx w
    = ((newtodo, newhost, ctx'),
       add_events w [EvLogf "on %dth handler: %v %s"]).
Proof.
  intros Hbefore. revert ctx. induction Hbefore as [|h0 before Hh0 _ IH];
    intros ctx Hh; simpl in *.
  - rewrite Hh. reflexivity.
  - specialize (Hh0 ctx). destruct (h0 host ctx) as [[o hst] c0].
    simpl in Hh0, Hh. subst o. apply IH. exact Hh.
Qed.

(** X8: when no CONNECT handler gives a decision, the choice stays the
    one the loop started with (in [handleHttps], [OkConnect] on the
    request's host): hosts returned without a decision are dropped, the
    context is the one the handlers leave, and nothing is logged. *)
Theorem no_decision_keeps_default (handlers : list HttpsHandler) todo host ctx w :
  Forall (fun h0 : HttpsHandler => forall c, (h0 host c).1.1 = None) handlers ->
  findConnectHandler handlers todo host ctx w
    = ((todo, host, foldl (fun c (h0 : HttpsHandler) => (h0 host c).2) ctx handlers), w).
Proof.
  intros Hall. revert ctx. induction Hall as [|h0 handlers Hh0 _ IH];
    intros ctx; simpl.
  - reflexivity.
  - specialize (Hh0 ctx). destruct (h0 host ctx) as [[o hst] c0].
    simpl in Hh0. subst o. apply IH.
Qed.

(** ** The cases of the switch *)

Lemma findConnectHandler_logs handlers todo host ctx w :
  exists logs,
    Forall (fun ev => exists f, ev = EvLogf f) logs /\
    findConnectHandler handlers todo host ctx w =
      ((findConnectHandler handlers todo host ctx {| trace := []; sess := 0 |}).1,
       add_events w logs).
Proof.
  revert ctx. induction handlers as [|h rest IH]; intros ctx; simpl.
  - exists []. split; [constructor|]. unfold ret, add_events.
    rewrite app_nil_r. destruct w; reflexivity.
  - destruct (h host ctx) as [[[newtodo|] newhost] ctx'].
    + exists [EvLogf "on %dth handler: %v %s"]. split; [|reflexivity].
      repeat constructor. eexists. reflexivity.
    + apply IH.
Qed.

(** Before the switch [handleHttps] takes a session id and logs. *)
Lemma handleHttps_switch proxy c r u reads w todo host ctx :
  req_URL r = Some u ->
  selected proxy (Host u) (newProxyCtx proxy r (wrap64 (sess w + 1))) = (todo, host, ctx) ->
  exists logs,
    Forall (fun ev => exists f, ev = EvLogf f) logs /\
    handleHttps proxy (Hijacker c None) r reads w =
      connectSwitch proxy r ctx None c todo host reads
        {| trace := trace w ++ logs; sess := wrap64 (sess w + 1) |}.
Proof.
  intros Hu Hsel. unfold handleHttps, bind, nextSession. simpl. rewrite Hu.
  match goal with |- context [findConnectHandler ?hs ?t ?h ?cx ?w1] =>
    destruct (findConnectHandler_logs hs t h cx w1) as (logs & Hlogs & Hrun)
  end.
  unfold selected in Hsel. rewrite Hrun, Hsel.
  exists (EvLogf "Running %d CONNECT handlers" :: logs). split.
  - constructor; [eexists; reflexivity|exact Hlogs].
  - unfold add_events. simpl. rewrite <- app_assoc. reflexivity.
Qed.

Lemma logs_client_events logs :
  Forall (fun ev => exists f, ev = EvLogf f) logs -> client_events logs = [].
Proof.
  intros H. apply client_events_off. eapply Forall_impl; [exact H|].
  intros ev [f ->]. reflexivity.
Qed.

Lemma first_dial_app_logs logs t :
  Forall (fun ev => exists f, ev = EvLogf f) logs ->
  first_dial (logs ++ t) = first_dial t.
Proof.
  induction 1 as [|ev logs [f ->] _ IH]; [reflexivity|exact IH].
Qed.

(** X9: with action [ConnectReject] the proxy never dials.  The client
    stream gets the context's response when a handler has set one, and is
    then closed; it is closed as well when there is no response and when
    writing the response fails. *)
Theorem reject_closes_client proxy r u reads w todo host ctx :
  req_URL r = Some u ->
  selected proxy (Host u) (newProxyCtx proxy r (wrap64 (sess w + 1)))
    = (todo, host, ctx) ->
  Action todo = ConnectReject ->
  let evs := events_of (handleHttps proxy (Hijacker ClientConn None) r reads) w in
  client_events evs =
    match Resp ctx with
    | Some resp => [EvWriteResponse ClientConn resp; EvClose ClientConn]
    | None => [EvClose ClientConn]
    end /\
  first_dial evs = None.
Proof.
  intros Hu Hsel Hact evs. subst evs.
  destruct (handleHttps_switch proxy ClientConn r u reads w todo host ctx Hu Hsel)
    as (logs & Hlogs & Hrun).
  unfold events_of. rewrite Hrun. unfold connectSwitch. rewrite Hact. simpl.
  unfold bind, attempt, emit, ret. simpl.
  destruct (Resp ctx) as [resp|]; simpl;
    repeat match goal with
           | |- context [match io_err ?n with _ => _ end] => destruct (io_err n); simpl
           end;
    rewrite <- !app_assoc, drop_app_length, client_events_app,
      (logs_client_events _ Hlogs), first_dial_app_logs by exact Hlogs;
    split; reflexivity.
Qed.

(** X10: with action [ConnectHijack] the proxy writes nothing: the only
    thing that happens to the client stream is the call of the action's
    [Hijack] callback, with the request and the context the handlers
    left; no address is dialed. *)
Theorem hijack_writes_nothing proxy r u reads w todo host ctx f :
  req_URL r = Some u ->
  selected proxy (Host u) (newProxyCtx proxy r (wrap64 (sess w + 1)))
    = (todo, host, ctx) ->
  Action todo = ConnectHijack ->
  Hijack todo = Some f ->
  let evs := events_of (handleHttps proxy (Hijacker ClientConn None) r reads) w in
  client_events evs = [EvHijack f r ClientConn ctx] /\
  first_dial evs = None.
Proof.
  intros Hu Hsel Hact Hhij evs. subst evs.
  destruct (handleHttps_switch proxy ClientConn r u reads w todo host ctx Hu Hsel)
    as (logs & Hlogs & Hrun).
  unfold events_of. rewrite Hrun. unfold connectSwitch. rewrite Hact, Hhij. simpl.
  rewrite <- !app_assoc, drop_app_length, client_events_app,
    (logs_client_events _ Hlogs), first_dial_app_logs by exact Hlogs.
  split; reflexivity.
Qed.

(** X11: an action that is none of the six constants falls through the
    switch: [handleHttps] returns with the hijacked client stream neither
    written to nor closed, and without dialing. *)
Theorem unknown_action_leaves_client proxy r u reads w todo host ctx :
  req_URL r = Some u ->
  selected proxy (Host u) (newProxyCtx proxy r (wrap64 (sess w + 1)))
    = (todo, host, ctx) ->
  (Action todo < 0 \/ 5 < Action todo)%Z ->
  let run := handleHttps proxy (Hijacker ClientConn None) r reads w in
  run.1 = Returned /\
  client_events (events_of (handleHttps proxy (Hijacker ClientConn None) r reads) w) = [] /\
  first_dial (events_of (handleHttps proxy (Hijacker ClientConn None) r reads) w) = None.
Proof.
  intros Hu Hsel Hact run. subst run.
  destruct (handleHttps_switch proxy ClientConn r u reads w todo host ctx Hu Hsel)
    as (logs & Hlogs & Hrun).
  unfold events_of. rewrite Hrun. unfold connectSwitch.
  unfold ConnectAccept, ConnectHijack, ConnectHTTPMitm, ConnectMitm,
    ConnectProxyAuthHijack, ConnectReject.
  repeat match goal with
         | |- context [(Action todo =? ?k)%Z] =>
             replace (Action todo =? k)%Z with false by (symmetry; apply Z.eqb_neq; lia)
         end.
  unfold ret. simpl. rewrite drop_app_length.
  split; [reflexivity|]. split; [apply logs_client_events; exact Hlogs|].
  rewrite <- (app_nil_r logs), first_dial_app_logs by exact Hlogs. reflexivity.
Qed.

(** X12: with action [ConnectAccept] and a target that accepts the
    connection, the client stream gets the 200 line and is then handed to
    the relay: two half-closing copies, one for each direction, when both
    the target and the client stream can be half-closed, and otherwise one
    task that copies both ways and closes both.  The dial function is one
    that leaves the client stream alone. *)
Theorem accept_starts_relay proxy r ctx e todo host reads w target :
  (forall network addr, emits_only off_client (connectDial proxy network addr)) ->
  Action todo = ConnectAccept ->
  let addr := if hasPort_MatchString host then host else host +:+ ":80" in
  (connectDial proxy "tcp" addr w).1 = Ok target ->
  client_events (events_of (connectSwitch proxy r ctx e ClientConn todo host reads) w) =
    EvWrite ClientConn ("HTTP/1.0 200 OK" +:+ CRLF +:+ CRLF) ::
    (if halfClosable target && halfClosable ClientConn
     then [EvGo (GoCopyAndClose target ClientConn);
           EvGo (GoCopyAndClose ClientConn target)]
     else [EvGo (GoCopyOrWarnBoth target ClientConn)]).
Proof.
  intros Hquiet Hact addr Hdial. unfold connectSwitch. rewrite Hact. simpl.
  replace (if negb (hasPort_MatchString host) then host +:+ ":80" else host)
    with addr by (subst addr; destruct (hasPort_MatchString host); reflexivity).
  destruct (Hquiet "tcp" addr w) as (e1 & Ht & Hoff).
  unfold events_of, bind. destruct (connectDial proxy "tcp" addr w) as [rc w1].
  simpl in Hdial, Ht. subst rc. unfold acceptDialed, bind, emit, ret. simpl.
  destruct (halfClosable target && halfClosable ClientConn); simpl;
    rewrite Ht, <- !app_assoc, drop_app_length, client_events_app,
      (client_events_off _ Hoff);
    unfold client_events; cbn; rewrite ?orb_true_r; reflexivity.
Qed.

(** X13: with action [ConnectHTTPMitm] the client is told 200 before the
    target is dialed, and the host is dialed as it is, with no port
    added.  When that dial fails the handler warns and returns: the client
    stream has got the 200 line and nothing else, neither a 502 nor its
    close. *)
Theorem httpMitm_dial_failure proxy r ctx e todo host reads w err :
  (forall network addr, emits_only off_client (connectDial proxy network addr)) ->
  Action todo = ConnectHTTPMitm ->
  (connectDial proxy "tcp" host
     (add_events w [EvWrite ClientConn ("HTTP/1.0 200 OK" +:+ CRLF +:+ CRLF);
                    EvLogf "Assuming CONNECT is plain HTTP tunneling, mitm proxying it"])).1
    = Fail err ->
  let evs := events_of (connectSwitch proxy r ctx e ClientConn todo host reads) w in
  client_events evs = [EvWrite ClientConn ("HTTP/1.0 200 OK" +:+ CRLF +:+ CRLF)] /\
  last evs = Some (EvWarnf "Error dialing to %s: %s").
Proof.
  intros Hquiet Hact Hdial evs. subst evs. unfold connectSwitch. rewrite Hact. simpl.
  unfold events_of, bind, emit. simpl.
  set (w1 := {| trace := (trace w ++ [EvWrite ClientConn HTTP_200_OK]) ++
                  [EvLogf "Assuming CONNECT is plain HTTP tunneling, mitm proxying it"];
                sess := sess w |}).
  replace (add_events w _) with w1 in Hdial
    by (unfold add_events, w1; rewrite <- app_assoc; reflexivity).
  destruct (Hquiet "tcp" host w1) as (e1 & Ht & Hoff).
  destruct (connectDial proxy "tcp" host w1) as [rc w2].
  simpl in Hdial, Ht. subst rc. simpl. rewrite Ht. unfold w1. simpl.
  rewrite <- !app_assoc, drop_app_length. simpl.
  split.
  - change (?a :: ?b :: e1 ++ ?t) with ([a; b] ++ e1 ++ t).
    rewrite !client_events_app, (client_events_off _ Hoff). reflexivity.
  - rewrite !app_comm_cons. apply last_snoc.
Qed.

(** ** The plain-HTTP loop *)

Lemma runDeferred_run d w :
  runDeferred d w = (tt, add_events w (EvBodyClose <$> d)).
Proof.
  revert w. induction d as [|b d IH]; intros w.
  - unfold add_events. simpl. rewrite app_nil_r. destruct w; reflexivity.
  - cbn [runDeferred]. unfold bind, emit. rewrite IH. unfold add_events. simpl.
    rewrite <- app_assoc. reflexivity.
Qed.

Lemma client_events_body_closes d : client_events (EvBodyClose <$> d) = [].
Proof. induction d as [|b d IH]; [reflexivity|exact IH]. Qed.

(** X14: in the plain-HTTP loop a failure on the way upstream or back
    ends the loop with a 502 and the close of the client stream, and the
    requests that follow are not served.  That holds when the request
    cannot be written to the target and when the target's answer cannot
    be read; when writing the answer to the client fails, the 502 line
    follows what was written of the answer. *)
Theorem httpMitm_failure_answers_502 proxy ctx target req req' rest d w :
  is_client target = false ->
  filterRequest proxy req ctx = (req', None) ->
  let evs :=
    events_of (httpMitmLoop proxy ctx ClientConn target (Ok req :: rest) d) w in
  let bad_gateway :=
    [EvWrite ClientConn ("HTTP/1.1 502 Bad Gateway" +:+ CRLF +:+ CRLF);
     EvClose ClientConn] in
  (io_err (length (trace w)) <> None -> client_events evs = bad_gateway) /\
  (io_err (length (trace w)) = None ->
     forall err, ReadResponse target req' = Fail err ->
     client_events evs = bad_gateway) /\
  (io_err (length (trace w)) = None ->
     forall resp, ReadResponse target req' = Ok resp ->
     io_err (S (length (trace w))) <> None ->
     client_events evs
       = EvWriteResponse ClientConn (filterResponse proxy resp ctx) :: bad_gateway).
Proof.
  intros Htarget Hfilter evs bad_gateway. subst evs bad_gateway.
  unfold events_of. cbn [httpMitmLoop]. unfold bind, httpMitmRequest.
  rewrite Hfilter. unfold bind, attempt. cbn [fst snd trace sess].
  repeat apply conj.
  - intros Hw. destruct (io_err (length (trace w))) as [werr|]; [|congruence].
    unfold httpError, bind, attempt, emit, ret. simpl.
    repeat match goal with
           | |- context [match io_err ?n with _ => _ end] => destruct (io_err n); simpl
           end;
      rewrite runDeferred_run; unfold add_events; simpl;
      rewrite <- !app_assoc, drop_app_length, !client_events_app,
        client_events_body_closes;
      unfold client_events; cbn; rewrite Htarget; reflexivity.
  - intros Hw err Hrr. rewrite Hw, Hrr.
    unfold httpError, bind, attempt, emit, ret. simpl.
    repeat match goal with
           | |- context [match io_err ?n with _ => _ end] => destruct (io_err n); simpl
           end;
      rewrite runDeferred_run; unfold add_events; simpl;
      rewrite <- !app_assoc, drop_app_length, !client_events_app,
        client_events_body_closes;
      unfold client_events; cbn; rewrite Htarget; reflexivity.
  - intros Hw resp Hrr Hw2. rewrite Hw, Hrr.
    unfold bind, attempt. simpl. rewrite length_app, Nat.add_1_r. simpl.
    destruct (io_err (S (length (trace w)))) as [werr|]; [|congruence].
    unfold httpError, bind, attempt, emit, ret. simpl.
    repeat match goal with
           | |- context [match io_err ?n with _ => _ end] => destruct (io_err n); simpl
           end;
      unfold bind, emit; simpl; rewrite runDeferred_run; unfold add_events; simpl;
      rewrite <- !app_assoc, drop_app_length, !client_events_app,
        client_events_body_closes;
      unfold client_events; cbn; rewrite Htarget; reflexivity.
Qed.

Lemma add_events_nil w : add_events w [] = w.
Proof. unfold add_events. rewrite app_nil_r. destruct w; reflexivity. Qed.





(** ** The TLS session *)

Lemma emits_only_Handshake_no_close c cfg :
  emits_only (fun ev => forall c', ev <> EvClose c') (Handshake c cfg).
Proof. unfold Handshake, GetCertificate_call. emits_auto; discriminate. Qed.

(** X16: once the handshake with the client has succeeded, the TLS
    session closes the TLS stream as its last effect, on every way out of
    the loop.  When the handshake fails the session only warns: it closes
    nothing. *)
Theorem tls_session_closes_stream proxy r ctx e cfg c reads w :
  let herr := (Handshake (TLSServer c cfg) cfg w).1.1.1 in
  let evs := events_of (mitmTLSSession proxy r ctx e cfg c reads) w in
  (herr = None -> last evs = Some (EvClose (TLSServer c cfg))) /\
  (herr <> None ->
     last evs = Some (EvWarnf "Cannot handshake client %v %v") /\
     forall c', EvClose c' ∉ evs).
Proof.
  intros herr evs. subst herr evs. unfold mitmTLSSession, events_of, bind.
  destruct (emits_only_Handshake_no_close (TLSServer c cfg) cfg w) as (e1 & Ht & Hno).
  destruct (Handshake (TLSServer c cfg) cfg w) as [[[herr cert] cfg'] w1].
  simpl in Ht. simpl. split.
  - intros ->. simpl.
    destruct (emits_only_mitmTLSLoop proxy r ctx e cfg' (TLSServer c cfg) reads w1)
      as (e2 & Ht2 & _).
    destruct (mitmTLSLoop proxy r ctx e cfg' (TLSServer c cfg) reads w1) as [out w2].
    simpl in Ht2. simpl. rewrite Ht2, Ht, <- !app_assoc, drop_app_length.
    rewrite app_assoc. apply last_snoc.
  - intros Hne. rewrite bool_decide_true by exact Hne. simpl.
    rewrite Ht, <- app_assoc, drop_app_length. split; [apply last_snoc|].
    intros c' Hin. apply elem_of_app in Hin as [Hin|Hin].
    + rewrite Forall_forall in Hno. exact (Hno _ Hin c' eq_refl).
    + apply list_elem_of_singleton in Hin. discriminate.
Qed.

(** X17: a failed read of the next inner request ends the session loop
    at once, whatever the client sent after it.  An error other than
    [io.EOF] ends it silently and takes no session id; [io.EOF] returned
    as an error takes a session id and logs a warning. *)
Theorem tls_read_error_ends_loop proxy r ctx e cfg c err rest w :
  mitmTLSLoop proxy r ctx e cfg c (Fail err :: rest) w =
    (Returned,
     if error_eqb err io_EOF
     then {| trace := trace w ++
                      [EvWarnf "Cannot read TLS request from mitm'd client %v %v"];
             sess := wrap64 (sess w + 1) |}
     else w).
Proof.
  cbn [mitmTLSLoop]. unfold bind, mitmTLSRequest.
  destruct (error_eqb err io_EOF); reflexivity.
Qed.

(** What [respond] does in a turn of the loop: write the filtered
    response, and stop the loop when a write error is left. *)
Lemma respond_trace e c resp w :
  exists rest,
    trace ((werr <- writeInnerResponse e c resp;;
            if bool_decide (werr ≠ None) then ret (Some Returned) else ret None) w).2
      = trace w ++ EvWrite c (statusLine resp) :: rest /\
    round_trip_urls rest = [].
Proof.
  destruct (writeInnerResponse_events e c resp w) as (rest & Hev & _ & _).
  destruct (emits_only_writeInnerResponse_no_trip e c resp w) as (evs & Ht & Hno).
  rewrite (events_of_app _ _ _ Ht) in Hev. subst evs.
  exists rest. unfold bind.
  destruct (writeInnerResponse e c resp w) as [werr w1]. simpl in Ht.
  split.
  - case_bool_decide; exact Ht.
  - apply round_trip_urls_inner. inversion Hno; assumption.
Qed.

(** X18: when the request filters answer an inner request themselves,
    nothing is sent upstream: the turn logs the request and writes the
    filters' response, passed through the response filters, starting with
    its status line.  That holds whether or not the request's URL had to
    be rebuilt, and whether or not rebuilding it worked. *)
Theorem filter_response_skips_upstream proxy r ctx e cfg c req u resp w :
  req_URL req = Some u ->
  (forall rq cx, (filterRequest proxy rq cx).2 = Some resp) ->
  exists lctx rest,
    events_of (mitmTLSRequest proxy r ctx e cfg c (Ok req)) w =
      EvLogf "req %v (%s)" ::
      EvWrite c (statusLine (filterResponse proxy resp lctx)) :: rest /\
    round_trip_urls rest = [].
Proof.
  intros Hu Hfilter. unfold events_of, mitmTLSRequest, bind, nextSession. simpl.
  rewrite Hu.
  destruct (if negb (httpsRegexp_MatchString (URL_String u))
            then match url_Parse ("https://" +:+ req_Host r +:+ URL_String u) with
                 | Ok u' => (Request_with_URL
                               (Request_with_RemoteAddr req (RemoteAddr r)) (Some u'), None)
                 | Fail perr => (Request_with_URL
                                   (Request_with_RemoteAddr req (RemoteAddr r)) None,
                                 Some perr)
                 end
            else (Request_with_RemoteAddr req (RemoteAddr r), None)) as [req1 perr].
  match goal with |- context [filterRequest proxy ?rq ?cx] =>
    pose proof (Hfilter rq cx) as Hf;
    destruct (filterRequest proxy rq cx) as [req2 o]; simpl in Hf; subst o;
    exists cx
  end.
  match goal with |- context [writeInnerResponse e c ?rsp ?w1] =>
    destruct (respond_trace e c rsp w1) as (rest & Ht & Hno)
  end.
  exists rest. split; [|exact Hno].
  unfold bind in Ht. unfold emit in *. simpl in *. rewrite Ht.
  rewrite <- app_assoc, drop_app_length. reflexivity.
Qed.


(** X19: an inner request that looks like a WebSocket upgrade is handed
    to the WebSocket bridge with the child context, the TLS configuration
    and the TLS stream, and the loop ends: nothing is sent upstream by the
    loop and nothing is written.  The check comes before the one on the
    rebuilt URL, so it also applies when that URL did not parse. *)
Theorem websocket_goes_to_bridge proxy r ctx e cfg c req u req2 w :
  req_URL req = Some u ->
  httpsRegexp_MatchString (URL_String u) = false ->
  let req1 :=
    Request_with_URL (Request_with_RemoteAddr req (RemoteAddr r))
      match url_Parse ("https://" +:+ req_Host r +:+ URL_String u) with
      | Ok u' => Some u'
      | Fail _ => None
      end in
  let localProxyCtx :=
    {| Req := Some req1; Resp := None; Session := wrap64 (sess w + 1);
       UserData := UserData ctx; certStore := None |} in
  filterRequest proxy req1 localProxyCtx = (req2, None) ->
  isWebSocketRequest req2 = true ->
  mitmTLSRequest proxy r ctx e cfg c (Ok req) w =
    (Some Returned,
     {| trace := trace w ++
                 [EvLogf "req %v (%s)";
                  EvLogf "Request looks like websocket upgrade.";
                  EvServeWebsocketTLS localProxyCtx req2 cfg c];
        sess := wrap64 (sess w + 1) |}).
Proof.
  intros Hu Hre req1 lctx Hfilter Hws.
  unfold mitmTLSRequest, bind, nextSession. simpl. rewrite Hu, Hre. simpl.
  subst req1 lctx.
  destruct (url_Parse ("https://" +:+ req_Host r +:+ URL_String u)) as [u'|perr];
    unfold ProxyCtx_with_Req; simpl; simpl in Hfilter; rewrite Hfilter, Hws;
    unfold bind, emit, ret; simpl; rewrite <- !app_assoc; reflexivity.
Qed.

(** X20: an inner request whose URL already begins with [https://] is
    not rebuilt: the request filters get it with its own URL (and the
    outer request's remote address), and the upstream round trip uses the
    URL of the request the filters return. *)
Theorem https_url_kept proxy r ctx e cfg c req u req2 w :
  req_URL req = Some u ->
  httpsRegexp_MatchString (URL_String u) = true ->
  let req1 := Request_with_RemoteAddr req (RemoteAddr r) in
  let localProxyCtx :=
    {| Req := Some req1; Resp := None; Session := wrap64 (sess w + 1);
       UserData := UserData ctx; certStore := None |} in
  filterRequest proxy req1 localProxyCtx = (req2, None) ->
  isWebSocketRequest req2 = false ->
  let evs := events_of (mitmTLSRequest proxy r ctx e cfg c (Ok req)) w in
  round_trip_urls evs = [req_URL req2] /\
  (req_URL req2 = req_URL req1 -> round_trip_urls evs = [Some u]).
Proof.
  intros Hu Hre req1 lctx Hfilter Hws evs.
  assert (round_trip_urls evs = [req_URL req2]) as Hurls.
  2:{ split; [exact Hurls|]. intros Heq. rewrite Hurls, Heq. subst req1. simpl.
      rewrite Hu. reflexivity. }
  subst evs. unfold events_of, mitmTLSRequest, bind, nextSession. simpl.
  rewrite Hu, Hre. simpl.
  unfold ProxyCtx_with_Req. simpl. fold req1. fold lctx.
  rewrite Hfilter, Hws. simpl.
  unfold bind, emit. simpl.
  destruct (RoundTrip lctx (removeProxyHeaders lctx req2)) as [resp|rerr]; simpl.
  - match goal with |- context [writeInnerResponse ?e ?c ?rsp ?w1] =>
      destruct (emits_only_writeInnerResponse_no_trip e c rsp w1) as (evs & Ht & Hno);
      destruct (writeInnerResponse e c rsp w1) as [werr w2]
    end.
    simpl in Ht. case_bool_decide; simpl;
    rewrite Ht; simpl; rewrite <- !app_assoc, drop_app_length; simpl;
    rewrite (round_trip_urls_inner _ Hno); reflexivity.
  - rewrite <- !app_assoc, drop_app_length. reflexivity.
Qed.

(** X21: when the URL rebuilt for an inner request does not parse, the
    request filters give no response and the request is no WebSocket
    upgrade, the loop ends with nothing sent upstream and nothing written
    to the client.  It logs [Illegal URL] when the request the filters
    return has a URL; when it has none, as the request they were given,
    building that message dereferences the nil URL and the goroutine
    panics. *)
Theorem unparsable_url_ends_loop proxy r ctx e cfg c req u perr req2 w :
  req_URL req = Some u ->
  httpsRegexp_MatchString (URL_String u) = false ->
  url_Parse ("https://" +:+ req_Host r +:+ URL_String u) = Fail perr ->
  let req1 :=
    Request_with_URL (Request_with_RemoteAddr req (RemoteAddr r)) None in
  let localProxyCtx :=
    {| Req := Some req1; Resp := None; Session := wrap64 (sess w + 1);
       UserData := UserData ctx; certStore := None |} in
  filterRequest proxy req1 localProxyCtx = (req2, None) ->
  isWebSocketRequest req2 = false ->
  mitmTLSRequest proxy r ctx e cfg c (Ok req) w =
    (Some match req_URL req2 with
          | None => Panicked "nil pointer dereference"
          | Some _ => Returned
          end,
     {| trace := trace w ++
                 EvLogf "req %v (%s)" ::
                 match req_URL req2 with
                 | None => []
                 | Some _ => [EvWarnf "Illegal URL %s"]
                 end;
        sess := wrap64 (sess w + 1) |}).
Proof.
  intros Hu Hre Hparse req1 lctx Hfilter Hws.
  unfold mitmTLSRequest, bind, nextSession. simpl. rewrite Hu, Hre. simpl.
  rewrite Hparse. unfold ProxyCtx_with_Req. simpl. fold req1. fold lctx.
  rewrite Hfilter, Hws. simpl.
  destruct (req_URL req2); unfold bind, emit, ret; simpl;
    rewrite <- ?app_assoc; reflexivity.
Qed.

(** X22: when the upstream round trip of an inner request fails, the loop
    ends with a warning and the client is sent nothing, not even a 502.
    The round trip is made with a child context: a fresh session id, the
    user data of the CONNECT's context, no certificate store; the request
    given to the filters carries the outer request's remote address. *)
Theorem upstream_failure_ends_loop proxy r ctx e cfg c req u u' req2 rerr w :
  req_URL req = Some u ->
  httpsRegexp_MatchString (URL_String u) = false ->
  url_Parse ("https://" +:+ req_Host r +:+ URL_String u) = Ok u' ->
  let req1 :=
    {| Method := Method req; req_URL := Some u'; req_Host := req_Host req;
       req_Header := req_Header req; RemoteAddr := RemoteAddr r |} in
  let localProxyCtx :=
    {| Req := Some req1; Resp := None; Session := wrap64 (sess w + 1);
       UserData := UserData ctx; certStore := None |} in
  filterRequest proxy req1 localProxyCtx = (req2, None) ->
  isWebSocketRequest req2 = false ->
  RoundTrip localProxyCtx (removeProxyHeaders localProxyCtx req2) = Fail rerr ->
  mitmTLSRequest proxy r ctx e cfg c (Ok req) w =
    (Some Returned,
     {| trace := trace w ++
                 [EvLogf "req %v (%s)";
                  EvRoundTrip localProxyCtx (removeProxyHeaders localProxyCtx req2);
                  EvWarnf "Cannot read TLS response from mitm'd server %v"];
        sess := wrap64 (sess w + 1) |}).
Proof.
  intros Hu Hre Hparse req1 lctx Hfilter Hws Hrt.
  unfold mitmTLSRequest, bind, nextSession. simpl. rewrite Hu, Hre. simpl.
  rewrite Hparse. unfold ProxyCtx_with_Req. simpl.
  change (Request_with_URL (Request_with_RemoteAddr req (RemoteAddr r)) (Some u'))
    with req1.
  fold lctx. rewrite Hfilter, Hws. simpl.
  unfold bind, emit, ret. simpl. rewrite Hrt. simpl.
  rewrite <- !app_assoc. reflexivity.
Qed.

(** X23: when the upstream round trip succeeds, what goes to the client
    is the upstream response as the response filters return it: after
    the round trip the turn logs the response and writes the status line
    of the filtered response, and makes no second round trip. *)
Theorem upstream_response_is_filtered proxy r ctx e cfg c req u u' req2 resp w :
  req_URL req = Some u ->
  httpsRegexp_MatchString (URL_String u) = false ->
  url_Parse ("https://" +:+ req_Host r +:+ URL_String u) = Ok u' ->
  let req1 :=
    {| Method := Method req; req_URL := Some u'; req_Host := req_Host req;
       req_Header := req_Header req; RemoteAddr := RemoteAddr r |} in
  let localProxyCtx :=
    {| Req := Some req1; Resp := None; Session := wrap64 (sess w + 1);
       UserData := UserData ctx; certStore := None |} in
  filterRequest proxy req1 localProxyCtx = (req2, None) ->
  isWebSocketRequest req2 = false ->
  RoundTrip localProxyCtx (removeProxyHeaders localProxyCtx req2) = Ok resp ->
  exists rest,
    events_of (mitmTLSRequest proxy r ctx e cfg c (Ok req)) w =
      EvLogf "req %v (%s)" ::
      EvRoundTrip localProxyCtx (removeProxyHeaders localProxyCtx req2) ::
      EvLogf "resp %v" ::
      EvWrite c (statusLine (filterResponse proxy resp localProxyCtx)) :: rest /\
    round_trip_urls rest = [].
Proof.
  intros Hu Hre Hparse req1 lctx Hfilter Hws Hrt.
  unfold events_of, mitmTLSRequest, bind, nextSession. simpl. rewrite Hu, Hre. simpl.
  rewrite Hparse. unfold ProxyCtx_with_Req. simpl.
  change (Request_with_URL (Request_with_RemoteAddr req (RemoteAddr r)) (Some u'))
    with req1.
  fold lctx. rewrite Hfilter, Hws. simpl.
  unfold bind, emit. simpl. rewrite Hrt. simpl.
  match goal with |- context [writeInnerResponse e c ?rsp ?w1] =>
    destruct (respond_trace e c rsp w1) as (rest & Ht & Hno)
  end.
  exists rest. split; [|exact Hno].
  unfold bind in Ht. unfold bind, emit in *. simpl in *. rewrite Ht.
  rewrite <- !app_assoc, drop_app_length. reflexivity.
Qed.


(** ** The relay *)

(** X24: [copyAndClose] half-closes both ends whether or not the copy
    worked: after the copy, and the warning when it failed, it closes the
    write side of the destination and the read side of the source.
    [copyOrWarn] copies, warns on failure, and closes nothing. *)
Theorem copyAndClose_always_half_closes ctx dst src w :
  let warning :=
    match io_err (length (trace w)) with
    | Some _ => [EvWarnf "Error copying to client: %s"]
    | None => []
    end in
  events_of (copyAndClose ctx dst src) w
    = EvCopy dst src :: warning ++ [EvCloseWrite dst; EvCloseRead src] /\
  events_of (copyOrWarn ctx dst src) w = EvCopy dst src :: warning.
Proof.
  unfold copyAndClose, copyOrWarn, events_of, bind, attempt, emit, ret. simpl.
  destruct (io_err (length (trace w))); simpl;
    rewrite <- ?app_assoc, !drop_app_length; split; reflexivity.
Qed.

(** ** Parent-proxy dialers *)

(** X25: [dialerFromEnv] reads [HTTPS_PROXY] first.  When it is set, the
    dialer is the one for its value and [https_proxy] is not looked at:
    if the value does not parse the result is nil, with no second try.
    When it is empty, [https_proxy] is used; when both are empty, the
    result is nil. *)
Theorem dialerFromEnv_precedence (getenv : string -> string) proxy :
  let upper := getenv "HTTPS_PROXY" in
  let lower := getenv "https_proxy" in
  (upper <> EmptyString ->
     dialerFromEnv getenv proxy = NewConnectDialToProxyWithHandler proxy upper None /\
     forall perr, url_Parse upper = Fail perr -> dialerFromEnv getenv proxy = None) /\
  (upper = EmptyString -> lower <> EmptyString ->
     dialerFromEnv getenv proxy = NewConnectDialToProxyWithHandler proxy lower None) /\
  (upper = EmptyString -> lower = EmptyString -> dialerFromEnv getenv proxy = None).
Proof.
  intros upper lower. unfold dialerFromEnv, NewConnectDialToProxy.
  fold upper. fold lower. repeat apply conj.
  - intros Hu. apply String.eqb_neq in Hu.
    assert (dialerFromEnv getenv proxy
            = NewConnectDialToProxyWithHandler proxy upper None) as Heq.
    { unfold dialerFromEnv, NewConnectDialToProxy. fold upper. rewrite Hu, Hu.
      reflexivity. }
    unfold dialerFromEnv, NewConnectDialToProxy in Heq. fold upper lower in Heq.
    split; [exact Heq|]. intros perr Hp. rewrite Heq.
    unfold NewConnectDialToProxyWithHandler. rewrite Hp. reflexivity.
  - intros Hu Hl. apply String.eqb_neq in Hl. rewrite Hu. simpl. rewrite Hl.
    reflexivity.
  - intros Hu Hl. rewrite Hu. simpl. rewrite Hl. reflexivity.
Qed.

(** X26: [NewConnectDialToProxyWithHandler] returns a dialer exactly when
    the parent-proxy URL parses and its scheme is empty, [http], [https]
    or [wss]; the request handler plays no part in that. *)
Theorem dialer_returned_iff proxy https_proxy handler :
  is_Some (NewConnectDialToProxyWithHandler proxy https_proxy handler) <->
  exists u, url_Parse https_proxy = Ok u /\
    (Scheme u = EmptyString \/ Scheme u = "http" \/
     Scheme u = "https" \/ Scheme u = "wss").
Proof.
  unfold NewConnectDialToProxyWithHandler.
  destruct (url_Parse https_proxy) as [u|perr].
  - destruct (String.eqb (Scheme u) EmptyString) eqn:H0;
      destruct (String.eqb (Scheme u) "http") eqn:H1;
      destruct (String.eqb (Scheme u) "https") eqn:H2;
      destruct (String.eqb (Scheme u) "wss") eqn:H3; simpl;
      rewrite ?String.eqb_eq in *; rewrite ?String.eqb_neq in *;
      (split; [intros Hs; try (exists u; split; [reflexivity|]; tauto);
               destruct Hs as [d Hd]; discriminate
              |intros (u0 & [= <-] & Hs); try (eexists; reflexivity);
               exfalso; tauto]).
  - split; [intros [d Hd]; discriminate|intros (u & Hu & _); discriminate].
Qed.

(** X27: what the two parent-proxy dialers do when there is no answer to
    look at.  A failed dial to the parent is returned as it is, with
    nothing written and nothing to close.  When the parent's answer to
    the CONNECT request cannot be read, the connection the request was
    written to is closed and the read error is returned. *)
Theorem dialer_failures_before_answer proxy u_Host handler network addr w :
  let connectReq := connectReq_for addr handler in
  (forall err w1, dial proxy network u_Host w = (Fail err, w1) ->
     httpProxyDialer proxy u_Host handler network addr w = (Fail err, w1) /\
     httpsProxyDialer proxy u_Host handler network addr w = (Fail err, w1)) /\
  (forall c w1 err, dial proxy network u_Host w = (Ok c, w1) ->
     ReadResponse c connectReq = Fail err ->
     httpProxyDialer proxy u_Host handler network addr w
       = (Fail err, add_events w1 [EvWriteRequest c connectReq; EvClose c])) /\
  (forall c w1 err, dial proxy network u_Host w = (Ok c, w1) ->
     let tc := TLSClient c (Tr_TLSClientConfig proxy) in
     ReadResponse tc connectReq = Fail err ->
     httpsProxyDialer proxy u_Host handler network addr w
       = (Fail err, add_events w1 [EvWriteRequest tc connectReq; EvClose tc])).
Proof.
  intros connectReq. unfold httpProxyDialer, httpsProxyDialer, bind.
  fold connectReq. repeat apply conj.
  - intros err w1 Hd. rewrite Hd. split; reflexivity.
  - intros c w1 err Hd Hr. rewrite Hd, Hr. unfold emit, ret, add_events. simpl.
    rewrite <- app_assoc. reflexivity.
  - intros c w1 err Hd. cbv zeta. intros Hr. rewrite Hd, Hr.
    unfold emit, ret, add_events. simpl. rewrite <- app_assoc. reflexivity.
Qed.

(** ** Certificate forging *)

(** X28: the [GetCertificate] closure remembers the last SNI it saw.  On
    a configuration used for a second handshake, a ClientHello without SNI
    is signed for the name of the earlier ClientHello, not for the CONNECT
    host. *)
Theorem serverName_sticks cl hello1 hello2 w :
  ServerName hello1 <> EmptyString ->
  ServerName hello2 = EmptyString ->
  let first := GetCertificate_call cl hello1 w in
  let second := GetCertificate_call first.1.2 hello2 first.2 in
  cl_serverName second.1.2 = ServerName hello1 /\
  (certStore (cl_ctx cl) = None ->
   second.1.1 = signHost (cl_ca cl) [ServerName hello1]).
Proof.
  intros H1 H2 first second. subst first second.
  unfold GetCertificate_call, bind, emit, ret. simpl.
  apply String.eqb_neq in H1. rewrite H1, H2. simpl.
  split; [reflexivity|]. intros ->. reflexivity.
Qed.

(** X29: when the certificate store fails to deliver a certificate, the
    failure is the handshake's: the session logs the name it signs for,
    warns that the handshake failed and ends, without reading a request
    and without closing anything. *)
Theorem forge_error_ends_session proxy r ctx e ca host pctx store hello ferr
    cfg c reads w :
  TLSConfigFromCA ca host pctx = Ok cfg ->
  certStore pctx = Some store ->
  client_hello = Ok hello ->
  let name :=
    if String.eqb (ServerName hello) EmptyString
    then stripPort host else ServerName hello in
  Fetch store name (fun _ : unit => signHost ca [name]) = Fail ferr ->
  mitmTLSSession proxy r ctx e cfg c reads w =
    (Returned,
     add_events w [EvLogf "signing for %s";
                   EvHandshake (TLSServer c cfg);
                   EvWarnf "Cannot handshake client %v %v"]).
Proof.
  intros Hcfg Hstore Hhello name Hfetch. injection Hcfg as <-.
  unfold mitmTLSSession, Handshake, bind. rewrite Hhello. simpl.
  unfold bind, GetCertificate_call, emit, ret. simpl. rewrite Hstore. simpl.
  subst name.
  destruct (String.eqb (ServerName hello) EmptyString); simpl in *;
    rewrite Hfetch; simpl; unfold add_events; simpl;
    rewrite <- !app_assoc; reflexivity.
Qed.

(** ** Session ids *)

Lemma writeInnerResponse_sess e c resp w :
  sess (writeInnerResponse e c resp w).2 = sess w.
Proof.
  unfold writeInnerResponse, bind, attempt, emit, ret. simpl.
  repeat (case_bool_decide; simpl); reflexivity.
Qed.

Lemma wrap64_next z :
  (- 2 ^ 63 <= z < 2 ^ 63 - 1)%Z -> wrap64 (z + 1) = (z + 1)%Z.
Proof.
  intros Hz. unfold wrap64. rewrite Z.mod_small by lia. lia.
Qed.

(** X30: every inner request read in a TLS session takes exactly one
    session id, whatever becomes of the request: the proxy's counter goes
    up by one, wrapping round as a 64-bit integer does, so below the
    largest 64-bit value the id is the one before plus one. *)
Theorem inner_request_takes_one_session_id proxy r ctx e cfg c req w :
  let after := sess (mitmTLSRequest proxy r ctx e cfg c (Ok req) w).2 in
  after = wrap64 (sess w + 1) /\
  ((- 2 ^ 63 <= sess w < 2 ^ 63 - 1)%Z -> after = (sess w + 1)%Z).
Proof.
  intros after.
  assert (after = wrap64 (sess w + 1)) as Hafter.
  2:{ split; [exact Hafter|]. intros Hz. rewrite Hafter. apply wrap64_next. exact Hz. }
  subst after. unfold mitmTLSRequest, bind, nextSession. simpl.
  destruct (req_URL req) as [u|]; [|reflexivity].
  destruct (if negb (httpsRegexp_MatchString (URL_String u))
            then match url_Parse ("https://" +:+ req_Host r +:+ URL_String u) with
                 | Ok u' => (Request_with_URL
                               (Request_with_RemoteAddr req (RemoteAddr r)) (Some u'), None)
                 | Fail perr => (Request_with_URL
                                   (Request_with_RemoteAddr req (RemoteAddr r)) None,
                                 Some perr)
                 end
            else (Request_with_RemoteAddr req (RemoteAddr r), None)) as [req1 perr].
  destruct (filterRequest proxy req1 _) as [req2 [resp|]].
  - unfold bind.
    match goal with |- context [writeInnerResponse e c ?rsp ?w1] =>
      pose proof (writeInnerResponse_sess e c rsp w1) as Hs;
      destruct (writeInnerResponse e c rsp w1) as [werr w2]
    end.
    simpl in Hs. case_bool_decide; simpl; exact Hs.
  - destruct (isWebSocketRequest req2); [reflexivity|].
    case_bool_decide; [destruct (req_URL req2); reflexivity|].
    unfold bind, emit. simpl.
    destruct (RoundTrip _ _) as [resp|rerr]; [|reflexivity].
    simpl.
    match goal with |- context [writeInnerResponse e c ?rsp ?w1] =>
      pose proof (writeInnerResponse_sess e c rsp w1) as Hs;
      destruct (writeInnerResponse e c rsp w1) as [werr w2]
    end.
    simpl in Hs. case_bool_decide; simpl; exact Hs.
Qed.

End Env.

(** * Instances on concrete inputs *)

(** C10 at [:3128], which does not parse, and at a [socks5] URL. *)
Lemma NewConnectDialToProxyWithHandler_nil_witness :
  NewConnectDialToProxyWithHandler sample_env (sample_proxy []) ":3128" None = None /\
  NewConnectDialToProxyWithHandler sample_env (sample_proxy [])
    "socks5://parent:1080" None = None.
Proof.
  split; apply NewConnectDialToProxyWithHandler_nil.
  - left. eexists. reflexivity.
  - right. eexists. split; [reflexivity|]. repeat split; discriminate.
Defined.

(** C7 at [example.com], [http://parent] and [wss://parent]. *)
Lemma port_defaulting_witness :
  first_dial (events_of
    (connectSwitch sample_env (sample_proxy []) sample_connect
       (newProxyCtx (sample_proxy []) sample_connect 1) None ClientConn
       (OkConnect sample_env) "example.com" []) world0)
    = Some ("tcp", "example.com:80") /\
  NewConnectDialToProxyWithHandler sample_env (sample_proxy []) "http://parent" None
    = Some (httpProxyDialer sample_env (sample_proxy []) "parent:80" None) /\
  NewConnectDialToProxyWithHandler sample_env (sample_proxy []) "wss://parent" None
    = Some (httpsProxyDialer sample_env (sample_proxy []) "parent:443" None).
Proof.
  destruct (port_defaulting sample_env) as (HA & HB & HC).
  split; [|split].
  - apply (HA (sample_proxy []) sample_connect
              (newProxyCtx (sample_proxy []) sample_connect 1) None ClientConn
              (OkConnect sample_env) "example.com" []);
      reflexivity.
  - apply (HB (sample_proxy []) "http://parent" None
              (mkURL "http" EmptyString "parent" EmptyString EmptyString));
      [reflexivity | right; reflexivity | reflexivity].
  - apply (HC (sample_proxy []) "wss://parent" None
              (mkURL "wss" EmptyString "parent" EmptyString EmptyString));
      [reflexivity | right; reflexivity | reflexivity].
Defined.

(** C3 at a parent that answers [403 Forbidden] with body [nope] (S6). *)
Lemma parent_proxy_answer_witness :
  let E := with_ReadResponse sample_env
             (fun _ _ => Ok (sample_response 403 "403 Forbidden" "nope")) in
  (httpProxyDialer E (sample_proxy []) "parent:3128" None "tcp" "origin:443" world0).1
    = Fail (Err "proxy refused connectionnope") /\
  (httpsProxyDialer E (sample_proxy []) "parent:3128" None "tcp" "origin:443" world0).1
    = Fail (Err "proxy refused connectionnope").
Proof.
  intros E.
  destruct (parent_proxy_answer E (sample_proxy []) "parent:3128" None "tcp"
              "origin:443" world0 (TCPConn "tcp" "parent:3128")
              (add_events world0 [EvDial "tcp" "parent:3128"])
              (sample_response 403 "403 Forbidden" "nope")
              (sample_response 403 "403 Forbidden" "nope")
              eq_refl eq_refl eq_refl)
    as (_ & Hplain & _ & _ & Htls & _).
  split.
  - rewrite Hplain; [reflexivity | discriminate | reflexivity].
  - destruct Htls as [Htls _]; [discriminate | left; reflexivity |].
    rewrite Htls. reflexivity.
Defined.

(** C3 as stated fails: the parent answers 403 and its body breaks off
    after two bytes.  The plain dialer returns the read error, not an
    error carrying the body, and the socket is not closed. *)
Lemma parent_proxy_refusal_counterexample :
  let E := with_ReadResponse sample_env (fun _ _ => Ok sample_truncated) in
  let run :=
    httpProxyDialer E (sample_proxy []) "parent:3128" None "tcp" "origin:443" world0 in
  StatusCode sample_truncated = 403%Z /\
  run.1 = Fail (Err "unexpected EOF") /\
  run.1 <> Fail (Err ("proxy refused connection" +:+ body_data (resp_Body sample_truncated))) /\
  trace run.2 =
    [EvDial "tcp" "parent:3128";
     EvWriteRequest (TCPConn "tcp" "parent:3128") (connectReq_for "origin:443" None);
     EvBodyClose (resp_Body sample_truncated)].
Proof. repeat split. discriminate. Qed.

(** C2 at the default action with a target that accepts, at a handler
    that picks TLS MITM, and at a target that refuses. *)
Lemma first_client_write_witness :
  head (client_events (events_of
    (connectSwitch sample_env (sample_proxy []) sample_connect
       (newProxyCtx (sample_proxy []) sample_connect 1) None ClientConn
       (OkConnect sample_env) "example.com:443" []) world0))
    = Some (EvWrite ClientConn ("HTTP/1.0 200 OK" +:+ CRLF +:+ CRLF)) /\
  head (client_events (events_of
    (connectSwitch sample_env (sample_proxy []) sample_connect
       (newProxyCtx (sample_proxy []) sample_connect 1) None ClientConn
       (MitmConnect sample_env) "example.com:443" []) world0))
    = Some (EvWrite ClientConn ("HTTP/1.0 200 OK" +:+ CRLF +:+ CRLF)) /\
  head (client_events (events_of
    (connectSwitch (with_net_Dial sample_env dial_refused) (sample_proxy [])
       sample_connect (newProxyCtx (sample_proxy []) sample_connect 1) None
       ClientConn (OkConnect sample_env) "example.com:443" []) world0))
    = Some (EvWrite ClientConn ("HTTP/1.1 502 Bad Gateway" +:+ CRLF +:+ CRLF)).
Proof.
  pose proof (first_client_write sample_env (sample_proxy []) sample_connect
                (newProxyCtx (sample_proxy []) sample_connect 1) None) as Hok.
  pose proof (first_client_write (with_net_Dial sample_env dial_refused)
                (sample_proxy []) sample_connect
                (newProxyCtx (sample_proxy []) sample_connect 1) None) as Hno.
  split; [|split].
  - destruct (Hok (OkConnect sample_env) "example.com:443" [] world0
                (connectDial_direct_quiet sample_env (sample_proxy []) eq_refl eq_refl)) as (_ & H & _).
    apply (H eq_refl (TCPConn "tcp" "example.com:443")). reflexivity.
  - destruct (Hok (MitmConnect sample_env) "example.com:443" [] world0
                (connectDial_direct_quiet sample_env (sample_proxy []) eq_refl eq_refl)) as (H & _).
    apply H. right. reflexivity.
  - destruct (Hno (OkConnect sample_env) "example.com:443" [] world0
                (connectDial_direct_quiet (with_net_Dial sample_env dial_refused)
                   (sample_proxy []) eq_refl eq_refl)) as (_ & _ & H).
    apply (H eq_refl (Err "connection refused")). reflexivity.
Defined.

(** C2 as stated fails: no handler decides, so the action is
    [ConnectAccept], and the target refuses the connection.  The first
    and only bytes the client gets are the 502 line. *)
Lemma first_client_write_counterexample :
  let E := with_net_Dial sample_env dial_refused in
  let proxy := sample_proxy [] in
  let run := handleHttps E proxy (Hijacker ClientConn None) sample_connect [] world0 in
  Action (selected E proxy "example.com:443"
            (newProxyCtx proxy sample_connect 1)).1.1 = ConnectAccept /\
  client_events (trace run.2) =
    [EvWrite ClientConn ("HTTP/1.1 502 Bad Gateway" +:+ CRLF +:+ CRLF);
     EvClose ClientConn] /\
  head (client_events (trace run.2))
    <> Some (EvWrite ClientConn ("HTTP/1.0 200 OK" +:+ CRLF +:+ CRLF)).
Proof. repeat split. discriminate. Qed.

(** C6 at [GET /index.html] inside a tunnel to [example.com:443], with
    no filters. *)
Lemma upstream_url_witness :
  round_trip_urls (events_of
    (mitmTLSRequest sample_env (sample_proxy []) sample_connect
       (newProxyCtx (sample_proxy []) sample_connect 1) None sample_tls
       (TLSServer ClientConn sample_tls) (Ok (sample_get "/index.html"))) world0)
  = [Some (mkURL "https" EmptyString "example.com:443" "/index.html" EmptyString)].
Proof.
  refine (proj2 (upstream_url sample_env (sample_proxy []) sample_connect
            (newProxyCtx (sample_proxy []) sample_connect 1) None sample_tls
            (TLSServer ClientConn sample_tls) (sample_get "/index.html")
            (mkURL EmptyString EmptyString EmptyString "/index.html" EmptyString)
            (mkURL "https" EmptyString "example.com:443" "/index.html" EmptyString)
            _ world0 eq_refl eq_refl eq_refl eq_refl eq_refl) eq_refl).
Defined.

(** C6 as stated fails: a request filter sends every request to a
    mirror.  The inner URL [/index.html] does not begin with [https://],
    the string built from it parses, and yet the round trip goes to the
    mirror's URL. *)
Lemma upstream_url_counterexample :
  let inner := mkURL EmptyString EmptyString EmptyString "/index.html" EmptyString in
  let built := "https://" +:+ req_Host sample_connect +:+ sample_String inner in
  httpsRegexp_MatchString (sample_String inner) = false /\
  built = "https://example.com:443/index.html" /\
  sample_Parse built
    = Ok (mkURL "https" EmptyString "example.com:443" "/index.html" EmptyString) /\
  round_trip_urls (events_of
    (mitmTLSRequest sample_env mirror_proxy sample_connect
       (newProxyCtx mirror_proxy sample_connect 1) None sample_tls
       (TLSServer ClientConn sample_tls) (Ok (sample_get "/index.html"))) world0)
  = [Some mirror_URL] /\
  Some mirror_URL
    <> Some (mkURL "https" EmptyString "example.com:443" "/index.html" EmptyString).
Proof. repeat split. discriminate. Qed.

(** C8 at a handler that asks for proxy authentication. *)
Lemma proxyAuthHijack_preface_witness :
  client_events (events_of
    (handleHttps sample_env (sample_proxy [auth_handler])
       (Hijacker ClientConn None) sample_connect []) world0)
  = [EvWrite ClientConn ("HTTP/1.1 407 Proxy Authentication Required" +:+ CRLF);
     EvHijack (HijackFn "auth") sample_connect ClientConn
       (newProxyCtx (sample_proxy [auth_handler]) sample_connect 1)].
Proof.
  refine (proj1 (proxyAuthHijack_preface sample_env (sample_proxy [auth_handler])
            sample_connect _ [] world0 _ _ _ (HijackFn "auth")
            eq_refl eq_refl eq_refl eq_refl)).
Defined.

(** C9 at a handler whose [TLSConfig] factory fails, with the 502 write
    failing too. *)
Lemma mitm_TLSConfig_error_witness :
  client_events (events_of
    (handleHttps (with_io_err sample_env (fails_at 4 "broken pipe"))
       (sample_proxy [broken_mitm_handler])
       (Hijacker ClientConn None) sample_connect []) world0)
  = [EvWrite ClientConn ("HTTP/1.0 200 OK" +:+ CRLF +:+ CRLF);
     EvWrite ClientConn ("HTTP/1.1 502 Bad Gateway" +:+ CRLF +:+ CRLF);
     EvClose ClientConn].
Proof.
  refine (mitm_TLSConfig_error (with_io_err sample_env (fails_at 4 "broken pipe"))
            (sample_proxy [broken_mitm_handler])
            sample_connect _ [] world0 _ _ _ _ (Err "no certificate")
            eq_refl eq_refl eq_refl eq_refl eq_refl).
Defined.

(** C1 on the code: a TLS session with two inner requests, [GET /a] and
    [GET /b].  Effect 12 is the chunked copy of the first response's
    body, effect 13 the chunked writer's close, effect 14 the trailing
    CRLF.  When the copy fails, or the close fails, nothing is logged and
    the loop goes on to serve [GET /b]; only a failing trailing CRLF ends
    the loop. *)
Theorem copy_error_ignored :
  let proxy :=
    sample_proxy [fun host ctx => (Some (MitmConnect sample_env), host, ctx)] in
  let reads := [Ok (sample_get "/a"); Ok (sample_get "/b")] in
  let session k :=
    trace (handleHttps (with_io_err sample_env (fails_at k "broken pipe")) proxy
             (Hijacker ClientConn None) sample_connect reads world0).2 in
  let ok := "HTTP/1.1 200 OK" +:+ CRLF in
  (exists c b, session 12 !! 12 = Some (EvCopyChunked c b)) /\
  status_lines (session 12) = [ok; ok] /\
  length (round_trip_urls (session 12)) = 2 /\
  warnings (session 12) = [] /\
  (exists c, session 13 !! 13 = Some (EvChunkedClose c)) /\
  status_lines (session 13) = [ok; ok] /\
  length (round_trip_urls (session 13)) = 2 /\
  warnings (session 13) = [] /\
  (exists c, session 14 !! 14 = Some (EvWrite c CRLF)) /\
  status_lines (session 14) = [ok] /\
  warnings (session 14)
    = ["Cannot write TLS response chunked trailer from mitm'd client: %v"].
Proof.
  repeat apply conj; try reflexivity.
  - eexists _, _. reflexivity.
  - eexists. reflexivity.
  - eexists. reflexivity.
Qed.

(** Scenario S6 of the spec: CONNECT goes through a parent proxy at
    [parent:3128] that answers [403 Forbidden] with body [nope]; the
    client gets the 502 line and its stream is closed. *)
Example parent_refuses_scenario :
  let E := with_ReadResponse sample_env
             (fun _ _ => Ok (sample_response 403 "403 Forbidden" "nope")) in
  let proxy :=
    {| httpsHandlers := [];
       ConnectDial := NewConnectDialToProxy E (sample_proxy []) "http://parent:3128";
       Tr_DialContext := None; Tr_TLSClientConfig := sample_tls; CertStore := None;
       filterRequest := id_filterRequest; filterResponse := id_filterResponse |} in
  let run := handleHttps E proxy (Hijacker ClientConn None) sample_connect [] world0 in
  first_dial (trace run.2) = Some ("tcp", "parent:3128") /\
  client_events (trace run.2) =
    [EvWrite ClientConn ("HTTP/1.1 502 Bad Gateway" +:+ CRLF +:+ CRLF);
     EvClose ClientConn].
Proof. split; reflexivity. Qed.

(** * Further instances *)

(** X2 at [[::1]:443]. *)
Lemma stripPort_strips_port_witness :
  hasPort_MatchString "[::1]:443" = true /\ stripPort "[::1]:443" = "[::1]".
Proof.
  apply (stripPort_strips_port "[::1]" "443"); [discriminate | reflexivity].
Defined.

(** X3 at [200 OK] and at a status without the code. *)
Lemma statusLine_code_once_witness :
  statusLine (sample_response 200 "200 OK" "hello") = "HTTP/1.1 200 OK" +:+ CRLF /\
  statusLine (sample_response 200 "OK" "hello") = "HTTP/1.1 200 OK" +:+ CRLF.
Proof.
  split.
  - rewrite (proj1 (statusLine_code_once (sample_response 200 "200 OK" "hello"))
               "OK" eq_refl).
    reflexivity.
  - rewrite (proj2 (statusLine_code_once (sample_response 200 "OK" "hello")) eq_refl).
    reflexivity.
Defined.


(** X6 in the environment where nothing fails. *)
Lemma writeInnerResponse_success_witness :
  events_of (writeInnerResponse sample_env None ClientConn sample_answer) world0 =
    [EvWrite ClientConn ("HTTP/1.1 200 OK" +:+ CRLF);
     EvWriteHeader ClientConn (chunkedHeader (resp_Header sample_answer));
     EvWrite ClientConn CRLF;
     EvCopyChunked ClientConn (resp_Body sample_answer);
     EvChunkedClose ClientConn;
     EvWrite ClientConn CRLF;
     EvBodyClose (resp_Body sample_answer)].
Proof.
  apply (writeInnerResponse_success sample_env ClientConn sample_answer world0).
  intros k Hk. reflexivity.
Defined.

(** X7 at a chain of three handlers: the first passes, the second asks
    for proxy authentication, the third is not asked. *)
Lemma first_decision_wins_witness :
  (findConnectHandler [pass_handler; auth_handler; broken_mitm_handler]
     (OkConnect sample_env) "example.com:443"
     (newProxyCtx (sample_proxy []) sample_connect 1) world0).1
  = ({| Action := ConnectProxyAuthHijack; Hijack := Some (HijackFn "auth");
        TLSConfig := None |},
     "example.com:443", newProxyCtx (sample_proxy []) sample_connect 1).
Proof.
  refine (f_equal fst
            (first_decision_wins [pass_handler] [broken_mitm_handler] auth_handler
               (OkConnect sample_env) "example.com:443"
               (newProxyCtx (sample_proxy []) sample_connect 1)
               {| Action := ConnectProxyAuthHijack; Hijack := Some (HijackFn "auth");
                  TLSConfig := None |}
               "example.com:443" (newProxyCtx (sample_proxy []) sample_connect 1)
               world0 _ eq_refl)).
  repeat constructor.
Defined.

(** X8 at two handlers that pass. *)
Lemma no_decision_keeps_default_witness :
  findConnectHandler [pass_handler; pass_handler]
    (OkConnect sample_env) "example.com:443"
    (newProxyCtx (sample_proxy []) sample_connect 1) world0
  = ((OkConnect sample_env, "example.com:443",
      newProxyCtx (sample_proxy []) sample_connect 1), world0).
Proof.
  apply (no_decision_keeps_default [pass_handler; pass_handler]).
  repeat constructor.
Defined.

(** X9 at a handler that rejects with a 451 response (S4). *)
Lemma reject_closes_client_witness :
  client_events (events_of
    (handleHttps sample_env (sample_proxy [reject_handler])
       (Hijacker ClientConn None) sample_connect []) world0)
  = [EvWriteResponse ClientConn sample_451; EvClose ClientConn].
Proof.
  refine (proj1 (reject_closes_client sample_env (sample_proxy [reject_handler])
            sample_connect _ [] world0 _ _ _ eq_refl eq_refl eq_refl)).
Defined.

(** X10 at a handler that hijacks. *)
Lemma hijack_writes_nothing_witness :
  client_events (events_of
    (handleHttps sample_env (sample_proxy [hijack_handler])
       (Hijacker ClientConn None) sample_connect []) world0)
  = [EvHijack (HijackFn "tunnel") sample_connect ClientConn
       (newProxyCtx (sample_proxy [hijack_handler]) sample_connect 1)].
Proof.
  refine (proj1 (hijack_writes_nothing sample_env (sample_proxy [hijack_handler])
            sample_connect _ [] world0 _ _ _ (HijackFn "tunnel")
            eq_refl eq_refl eq_refl eq_refl)).
Defined.

(** X11 at action 7. *)
Lemma unknown_action_leaves_client_witness :
  client_events (events_of
    (handleHttps sample_env (sample_proxy [odd_handler])
       (Hijacker ClientConn None) sample_connect []) world0) = [].
Proof.
  refine (proj1 (proj2 (unknown_action_leaves_client sample_env
            (sample_proxy [odd_handler]) sample_connect _ [] world0 _ _ _
            eq_refl eq_refl _))).
  right. reflexivity.
Defined.

(** X12 at the default action, with TCP on both sides. *)
Lemma accept_starts_relay_witness :
  client_events (events_of
    (connectSwitch sample_env (sample_proxy []) sample_connect
       (newProxyCtx (sample_proxy []) sample_connect 1) None ClientConn
       (OkConnect sample_env) "example.com:443" []) world0)
  = [EvWrite ClientConn ("HTTP/1.0 200 OK" +:+ CRLF +:+ CRLF);
     EvGo (GoCopyAndClose (TCPConn "tcp" "example.com:443") ClientConn);
     EvGo (GoCopyAndClose ClientConn (TCPConn "tcp" "example.com:443"))].
Proof.
  refine (accept_starts_relay sample_env (sample_proxy []) sample_connect
            (newProxyCtx (sample_proxy []) sample_connect 1) None
            (OkConnect sample_env) "example.com:443" [] world0
            (TCPConn "tcp" "example.com:443")
            (connectDial_direct_quiet sample_env (sample_proxy []) eq_refl eq_refl)
            eq_refl eq_refl).
Defined.

(** X13 at a target that refuses the connection. *)
Lemma httpMitm_dial_failure_witness :
  client_events (events_of
    (connectSwitch (with_net_Dial sample_env dial_refused) (sample_proxy [])
       sample_connect (newProxyCtx (sample_proxy []) sample_connect 1) None
       ClientConn http_mitm_action "example.com" []) world0)
  = [EvWrite ClientConn ("HTTP/1.0 200 OK" +:+ CRLF +:+ CRLF)].
Proof.
  refine (proj1 (httpMitm_dial_failure (with_net_Dial sample_env dial_refused)
            (sample_proxy []) sample_connect
            (newProxyCtx (sample_proxy []) sample_connect 1) None
            http_mitm_action "example.com" [] world0 (Err "connection refused")
            (connectDial_direct_quiet (with_net_Dial sample_env dial_refused)
               (sample_proxy []) eq_refl eq_refl)
            eq_refl eq_refl)).
Defined.

(** X14 at a target that cannot be written to, with a second request
    waiting. *)
Lemma httpMitm_failure_answers_502_witness :
  client_events (events_of
    (httpMitmLoop (with_io_err sample_env (fails_at 0 "broken pipe")) (sample_proxy [])
       (newProxyCtx (sample_proxy []) sample_connect 1) ClientConn
       (TCPConn "tcp" "example.com:80")
       [Ok (sample_get "/a"); Ok (sample_get "/b")] []) world0)
  = [EvWrite ClientConn ("HTTP/1.1 502 Bad Gateway" +:+ CRLF +:+ CRLF);
     EvClose ClientConn].
Proof.
  refine (proj1 (httpMitm_failure_answers_502
            (with_io_err sample_env (fails_at 0 "broken pipe")) (sample_proxy [])
            (newProxyCtx (sample_proxy []) sample_connect 1)
            (TCPConn "tcp" "example.com:80") (sample_get "/a") (sample_get "/a")
            [Ok (sample_get "/b")] [] world0 eq_refl eq_refl) _).
  discriminate.
Defined.

(** X16 at a session that serves one request. *)
Lemma tls_session_closes_stream_witness :
  last (events_of
    (mitmTLSSession sample_env (sample_proxy []) sample_connect
       (newProxyCtx (sample_proxy []) sample_connect 1) None sample_tls ClientConn
       [Ok (sample_get "/a")]) world0)
  = Some (EvClose (TLSServer ClientConn sample_tls)).
Proof.
  apply (proj1 (tls_session_closes_stream sample_env (sample_proxy []) sample_connect
                  (newProxyCtx (sample_proxy []) sample_connect 1) None sample_tls
                  ClientConn [Ok (sample_get "/a")] world0)).
  reflexivity.
Defined.

(** X18 at request filters that answer with a 451. *)
Lemma filter_response_skips_upstream_witness :
  exists lctx rest,
    events_of
      (mitmTLSRequest sample_env canned_proxy sample_connect
         (newProxyCtx canned_proxy sample_connect 1) None sample_tls
         (TLSServer ClientConn sample_tls) (Ok (sample_get "/index.html"))) world0
    = EvLogf "req %v (%s)" ::
      EvWrite (TLSServer ClientConn sample_tls)
        (statusLine (filterResponse canned_proxy sample_451 lctx)) :: rest /\
    round_trip_urls rest = [].
Proof.
  apply (filter_response_skips_upstream sample_env canned_proxy sample_connect
           (newProxyCtx canned_proxy sample_connect 1) None sample_tls
           (TLSServer ClientConn sample_tls) (sample_get "/index.html")
           (mkURL EmptyString EmptyString EmptyString "/index.html" EmptyString)
           sample_451 world0 eq_refl).
  intros rq cx. reflexivity.
Defined.

(** X19 at an upgrade request, where every request counts as one. *)
Lemma websocket_goes_to_bridge_witness :
  (mitmTLSRequest (with_isWebSocketRequest sample_env (fun _ => true))
     (sample_proxy []) sample_connect
     (newProxyCtx (sample_proxy []) sample_connect 1) None sample_tls
     (TLSServer ClientConn sample_tls) (Ok (sample_get "/chat")) world0).1
  = Some Returned.
Proof.
  rewrite (websocket_goes_to_bridge (with_isWebSocketRequest sample_env (fun _ => true))
             (sample_proxy []) sample_connect
             (newProxyCtx (sample_proxy []) sample_connect 1) None sample_tls
             (TLSServer ClientConn sample_tls) (sample_get "/chat")
             (mkURL EmptyString EmptyString EmptyString "/chat" EmptyString)
             _ world0 eq_refl eq_refl eq_refl eq_refl).
  reflexivity.
Defined.

(** X20 at [GET https://example.com/x]. *)
Lemma https_url_kept_witness :
  round_trip_urls (events_of
    (mitmTLSRequest sample_env (sample_proxy []) sample_connect
       (newProxyCtx (sample_proxy []) sample_connect 1) None sample_tls
       (TLSServer ClientConn sample_tls) (Ok sample_get_https)) world0)
  = [Some (mkURL "https" EmptyString "example.com" "/x" EmptyString)].
Proof.
  refine (proj2 (https_url_kept sample_env (sample_proxy []) sample_connect
            (newProxyCtx (sample_proxy []) sample_connect 1) None sample_tls
            (TLSServer ClientConn sample_tls) sample_get_https
            (mkURL "https" EmptyString "example.com" "/x" EmptyString)
            _ world0 eq_refl eq_refl eq_refl eq_refl) eq_refl).
Defined.

(** X21 where no rebuilt URL parses: the filters leave the request
    without a URL, so the goroutine panics. *)
Lemma unparsable_url_ends_loop_witness :
  (mitmTLSRequest (with_url_Parse sample_env (fun _ => Fail (Err "invalid port")))
     (sample_proxy []) sample_connect
     (newProxyCtx (sample_proxy []) sample_connect 1) None sample_tls
     (TLSServer ClientConn sample_tls) (Ok (sample_get "/index.html")) world0).1
  = Some (Panicked "nil pointer dereference").
Proof.
  rewrite (unparsable_url_ends_loop
             (with_url_Parse sample_env (fun _ => Fail (Err "invalid port")))
             (sample_proxy []) sample_connect
             (newProxyCtx (sample_proxy []) sample_connect 1) None sample_tls
             (TLSServer ClientConn sample_tls) (sample_get "/index.html")
             (mkURL EmptyString EmptyString EmptyString "/index.html" EmptyString)
             (Err "invalid port") _ world0 eq_refl eq_refl eq_refl eq_refl eq_refl).
  reflexivity.
Defined.

(** X22 at an upstream that cannot be reached. *)
Lemma upstream_failure_ends_loop_witness :
  client_events (events_of
    (mitmTLSRequest (with_RoundTrip sample_env (fun _ _ => Fail (Err "no route to host")))
       (sample_proxy []) sample_connect
       (newProxyCtx (sample_proxy []) sample_connect 1) None sample_tls
       (TLSServer ClientConn sample_tls) (Ok (sample_get "/index.html"))) world0)
  = [].
Proof.
  unfold events_of.
  rewrite (upstream_failure_ends_loop
             (with_RoundTrip sample_env (fun _ _ => Fail (Err "no route to host")))
             (sample_proxy []) sample_connect
             (newProxyCtx (sample_proxy []) sample_connect 1) None sample_tls
             (TLSServer ClientConn sample_tls) (sample_get "/index.html")
             (mkURL EmptyString EmptyString EmptyString "/index.html" EmptyString)
             (mkURL "https" EmptyString "example.com:443" "/index.html" EmptyString)
             _ (Err "no route to host") world0
             eq_refl eq_refl eq_refl eq_refl eq_refl eq_refl).
  reflexivity.
Defined.

(** X23 at an upstream that answers [200 OK]. *)
Lemma upstream_response_is_filtered_witness :
  exists rest,
    drop 3 (events_of
      (mitmTLSRequest sample_env (sample_proxy []) sample_connect
         (newProxyCtx (sample_proxy []) sample_connect 1) None sample_tls
         (TLSServer ClientConn sample_tls) (Ok (sample_get "/index.html"))) world0)
    = EvWrite (TLSServer ClientConn sample_tls) ("HTTP/1.1 200 OK" +:+ CRLF) :: rest.
Proof.
  destruct (upstream_response_is_filtered sample_env (sample_proxy []) sample_connect
              (newProxyCtx (sample_proxy []) sample_connect 1) None sample_tls
              (TLSServer ClientConn sample_tls) (sample_get "/index.html")
              (mkURL EmptyString EmptyString EmptyString "/index.html" EmptyString)
              (mkURL "https" EmptyString "example.com:443" "/index.html" EmptyString)
              _ sample_answer world0
              eq_refl eq_refl eq_refl eq_refl eq_refl eq_refl)
    as (rest & Hev & _).
  exists rest. rewrite Hev. reflexivity.
Defined.

(** X25 at an unparsable [HTTPS_PROXY] next to a usable [https_proxy]. *)
Lemma dialerFromEnv_precedence_witness :
  dialerFromEnv sample_env (sample_getenv ":3128" "http://parent:3128")
    (sample_proxy []) = None.
Proof.
  apply (proj2 (proj1 (dialerFromEnv_precedence sample_env
                         (sample_getenv ":3128" "http://parent:3128")
                         (sample_proxy [])) ltac:(discriminate))
           (Err "missing protocol scheme")).
  reflexivity.
Defined.

(** X27 at a parent that cannot be reached. *)
Lemma dialer_failures_before_answer_witness :
  httpsProxyDialer (with_net_Dial sample_env dial_refused) (sample_proxy [])
    "parent:443" None "tcp" "origin:443" world0
  = (Fail (Err "connection refused"),
     add_events world0 [EvDial "tcp" "parent:443"]).
Proof.
  apply (proj1 (dialer_failures_before_answer
                  (with_net_Dial sample_env dial_refused) (sample_proxy [])
                  "parent:443" None "tcp" "origin:443" world0)
           (Err "connection refused") (add_events world0 [EvDial "tcp" "parent:443"])).
  reflexivity.
Defined.

(** X28 at a first ClientHello for [real.example] and a second without
    SNI, on the configuration made for [10.0.0.1:443]. *)
Lemma serverName_sticks_witness :
  let cl := {| cl_ca := sample_ca;
               cl_ctx := newProxyCtx (sample_proxy []) sample_connect 1;
               cl_serverName := stripPort "10.0.0.1:443" |} in
  let first := GetCertificate_call cl (mkHello "real.example") world0 in
  (GetCertificate_call first.1.2 (mkHello EmptyString) first.2).1.1
  = Ok (Leaf ["real.example"] sample_ca).
Proof.
  intros cl first.
  apply (proj2 (serverName_sticks cl (mkHello "real.example") (mkHello EmptyString)
                  world0 ltac:(discriminate) eq_refl)).
  reflexivity.
Defined.

(** X29 at a store that is out of order. *)
Lemma forge_error_ends_session_witness :
  let pctx := newProxyCtx store_proxy sample_connect 1 in
  let cfg :=
    {| InsecureSkipVerify := true;
       GetCertificate :=
         Some {| cl_ca := sample_ca; cl_ctx := pctx;
                 cl_serverName := "example.com" |} |} in
  (mitmTLSSession sample_env store_proxy sample_connect pctx None cfg ClientConn
     [Ok (sample_get "/a")] world0).1 = Returned.
Proof.
  intros pctx cfg.
  rewrite (forge_error_ends_session sample_env store_proxy sample_connect pctx None
             sample_ca "example.com:443" pctx broken_store (mkHello EmptyString)
             (Err "store unavailable") cfg ClientConn [Ok (sample_get "/a")] world0
             eq_refl eq_refl eq_refl eq_refl).
  reflexivity.
Defined.

(** X30 at the first inner request of a proxy whose counter stands at 1. *)
Lemma inner_request_takes_one_session_id_witness :
  sess (mitmTLSRequest sample_env (sample_proxy []) sample_connect
          (newProxyCtx (sample_proxy []) sample_connect 1) None sample_tls
          (TLSServer ClientConn sample_tls) (Ok (sample_get "/a"))
          {| trace := []; sess := 1 |}).2 = 2%Z.
Proof.
  apply (proj2 (inner_request_takes_one_session_id sample_env (sample_proxy [])
                  sample_connect (newProxyCtx (sample_proxy []) sample_connect 1)
                  None sample_tls (TLSServer ClientConn sample_tls)
                  (sample_get "/a") {| trace := []; sess := 1 |})).
  simpl. lia.
Defined.
